(** * Reddit Python Topics Analyzer: the scraper of [web_scraping/main.py]

    A shallow embedding of [scrape_reddit_python_topics] and of the part of
    [main] that summarises its result ([web_scraping/copy.py] is the same
    program without its comments), with the properties of the batch loop
    and of the extraction rules proved over it.

    Python [str] values are modelled as [string]: a character is a code
    point below 256.  The libraries the script calls ([requests], [bs4],
    [time]) are not part of the repository: the network and the clock are
    an oracle ([World]), the HTML parser is a function from the raw bytes
    to the parsed document.

    [main.py] annotates the function with [list[dict[str, Any]]] and
    imports no [Any]; the embedding is of the body of the function, which
    [copy.py] has without the annotation. *)

From stdpp Require Import base gmap sets list strings pretty.
From Stdlib Require Import ZArith Lia Ascii.

Local Open Scope Z_scope.

(** String concatenation unfolds on a literal or a constructor. *)
#[local] Arguments String.append !_ _ / : simpl nomatch.

(** ** Python string operations used by the scraper *)

Module PyStr.

(** [len(s)] *)
Definition len (s : string) : Z := Z.of_nat (String.length s).

(** [bool(s)]: a string is truthy when it is not empty. *)
Definition truthy (s : string) : bool :=
  match s with EmptyString => false | String _ _ => true end.

(** [c.lower()] on the code points below 256: A-Z and the upper-case
    Latin-1 letters (192-222 but the multiplication sign 215) move up by
    32, every other code point is its own lower case. *)
Definition lower_char (c : ascii) : ascii :=
  let n := N_of_ascii c in
  if ((65 <=? n) && (n <=? 90) || (192 <=? n) && (n <=? 222) && negb (n =? 215))%N
  then ascii_of_N (n + 32)
  else c.

(** [s.lower()] *)
Fixpoint lower (s : string) : string :=
  match s with
  | EmptyString => EmptyString
  | String c s' => String (lower_char c) (lower s')
  end.

(** [s.startswith(p)] *)
Fixpoint startswith (p s : string) : bool :=
  match p, s with
  | EmptyString, _ => true
  | String _ _, EmptyString => false
  | String a p', String b s' => Ascii.eqb a b && startswith p' s'
  end.

(** [sub in s] *)
Fixpoint contains (sub s : string) : bool :=
  startswith sub s ||
  match s with
  | EmptyString => false
  | String _ s' => contains sub s'
  end.

(** [s[:n]] for [n >= 0] *)
Fixpoint slice_to (n : nat) (s : string) : string :=
  match n, s with
  | O, _ => EmptyString
  | S _, EmptyString => EmptyString
  | S n', String c s' => String c (slice_to n' s')
  end.

(** [s.split(sep)] for a one-character separator: the list is never
    empty, and an absent separator gives [[s]]. *)
Fixpoint split (sep : ascii) (s : string) : list string :=
  match s with
  | EmptyString => [EmptyString]
  | String c s' =>
      if Ascii.eqb c sep then EmptyString :: split sep s'
      else match split sep s' with
           | [] => [String c EmptyString]
           | w :: ws => String c w :: ws
           end
  end.

(** [l[-1]] of a list that is not empty. *)
Definition last_item (l : list string) : string := List.last l EmptyString.

End PyStr.

(** ** The parsed document (what [bs4] gives the script) *)

(** An element of the document.  [get_text] is the value of
    [tag.get_text(strip=True)]; [href] is the attribute [tag['href']],
    [None] when the element has none. *)
Record Tag := {
  tag_name : string;
  get_text : string;
  href : option string
}.

(** The document: [soup.title] (a [<title>] element or [None], and its
    [.string], which may be [None] too), and every element of the
    document in document order, which is the order [find_all] follows. *)
Record Soup := {
  soup_title : option (option string);
  descendants : list Tag
}.

(** [soup.find_all(['h1', 'h2', 'h3', 'h4'])] *)
Definition find_all_headings (soup : Soup) : list Tag :=
  List.filter (fun t => bool_decide (tag_name t ∈ ["h1"; "h2"; "h3"; "h4"]))
              (descendants soup).

(** [soup.find_all('a', href=True)]: the anchors that carry an [href],
    each with the value of that attribute. *)
Definition find_all_a_href (soup : Soup) : list (Tag * string) :=
  omap (fun t => if decide (tag_name t = "a")
                 then match href t with Some h => Some (t, h) | None => None end
                 else None)
       (descendants soup).

(** ** The records the scraper builds *)

Record topic := { t_title : string; t_type : string }.

Record discussion := { d_title : string; d_url : string; d_type : string }.

Record subreddit_data := {
  subreddit : string;
  sd_url : string;
  sd_title : option string;
  scraped_at : string;
  python_topics : list topic;
  discussions : list discussion
}.

(** ** Extraction rules (main.py 117-168, copy.py 32-52) *)

Definition keywords : list string :=
  ["python"; "programming"; "code"; "developer"; "coding"].

(** [any(keyword in text.lower() for keyword in [...])] *)
Definition any_keyword (text : string) : bool :=
  existsb (fun keyword => PyStr.contains keyword (PyStr.lower text)) keywords.

(** One turn of the loop over the headings. *)
Definition heading_step (topics : list topic) (heading : Tag) : list topic :=
  let text := get_text heading in
  if PyStr.truthy text && (3 <? PyStr.len text)%Z then
    if any_keyword text then
      topics ++ [ {| t_title := text; t_type := "python_topic" |} ]
    else topics
  else topics.

Definition extract_topics (soup : Soup) : list topic :=
  fold_left heading_step (find_all_headings soup) [].

(** The title stored for a discussion:
    [text[:100] + '...' if len(text) > 100 else text]. *)
Definition discussion_title (text : string) : string :=
  if (100 <? PyStr.len text)%Z then PyStr.slice_to 100 text +:+ "..." else text.

(** One turn of the loop over the links; the state is the pair of the
    local variables [seen_urls] and [discussions]. *)
Definition link_step (st : gset string * list discussion) (link : Tag * string)
  : gset string * list discussion :=
  let '(seen_urls, discussions) := st in
  let text := get_text (fst link) in
  let href := snd link in
  if PyStr.truthy text && (1 <? PyStr.len text)%Z
     && PyStr.contains "/comments/" href
     && negb (bool_decide (href ∈ seen_urls))
  then ({[ href ]} ∪ seen_urls,
        discussions ++ [ {| d_title := discussion_title text;
                            d_url := href;
                            d_type := "discussion" |} ])
  else (seen_urls, discussions).

(** [seen_urls = set()] and [discussions = []] are created anew for every
    document, just before the loop. *)
Definition extract_links (links : list (Tag * string)) : gset string * list discussion :=
  fold_left link_step links (∅, []).

Definition extract_discussions (soup : Soup) : list discussion :=
  snd (extract_links (find_all_a_href soup)).

(** ** The world outside the script *)

Abbreviation bytes := (list Byte.byte).

(** The exceptions the loop can meet.  The first four are the subclasses
    of [requests.RequestException] the script's comments name; the last
    stands for every other subclass of [Exception].  What is not an
    [Exception] ([KeyboardInterrupt], [SystemExit]) is outside the model. *)
Inductive exception :=
| ConnectionError (msg : string)
| Timeout (msg : string)
| TooManyRedirects (msg : string)
| HTTPError (msg : string)
| OtherException (msg : string).

(** [isinstance(e, requests.RequestException)] *)
Definition is_RequestException (e : exception) : bool :=
  match e with
  | OtherException _ => false
  | _ => true
  end.

(** [str(e)], as the f-strings of the handlers print it. *)
Definition str_of_exception (e : exception) : string :=
  match e with
  | ConnectionError m | Timeout m | TooManyRedirects m | HTTPError m
  | OtherException m => m
  end.

(** What [requests.get] returns when it returns. *)
Record Response := {
  status_code : Z;
  reason : string;
  resp_url : string;
  content : bytes
}.

(** The network and the clock.  [requests_get w k url] is the result of
    the call of [requests.get] on [url] when [k] requests were issued
    before it; [strftime w k] is what
    [time.strftime('%Y-%m-%d %H:%M:%S')] returns after [k] requests. *)
Record World := {
  requests_get : nat -> string -> exception + Response;
  strftime : nat -> string
}.

(** What a run does to the world, in order. *)
Inductive event :=
| Print (line : string)
| Get (url : string) (user_agent : string) (timeout : Z)
| Sleep (seconds : Z)
| Save (data : list subreddit_data).

(** ** A state and exception monad for the body of the function *)

(** The state of a run: the local variable [all_data], the events so far,
    and the number of requests issued. *)
Record state := {
  all_data : list subreddit_data;
  trace : list event;
  n_requests : nat
}.

Definition M (A : Type) : Type := state -> (exception + A) * state.

#[export] Instance M_ret : MRet M := fun A a s => (inr a, s).

#[export] Instance M_throw : MThrow exception M := fun A e s => (inl e, s).

#[export] Instance M_bind : MBind M := fun A B k m s =>
  match m s with
  | (inl e, s') => (inl e, s')
  | (inr a, s') => k a s'
  end.

(** [try: m except Exception as e: h e]: the handler starts from the
    state reached when the exception was raised. *)
Definition try_except {A} (m : M A) (h : exception -> M A) : M A :=
  fun s => match m s with
           | (inl e, s') => h e s'
           | (inr a, s') => (inr a, s')
           end.

(** [for x in l: body x] *)
Fixpoint for_each {X} (l : list X) (body : X -> M unit) : M unit :=
  match l with
  | [] => mret tt
  | x :: l' => body x ;; for_each l' body
  end.

Definition emit (e : event) : M unit :=
  fun s => (inr tt, {| all_data := all_data s;
                       trace := trace s ++ [e];
                       n_requests := n_requests s |}).

Definition print (line : string) : M unit := emit (Print line).

Definition time_sleep (seconds : Z) : M unit := emit (Sleep seconds).

(** A library call that returns or raises. *)
Definition lift {A} (r : exception + A) : M A :=
  match r with
  | inl e => mthrow e
  | inr a => mret a
  end.

(** ** [scrape_reddit_python_topics] (main.py 24-199, copy.py 8-61) *)

Definition subreddits : list string :=
  [ "https://www.reddit.com/r/Python";
    "https://www.reddit.com/r/programming";
    "https://www.reddit.com/r/learnpython" ].

Definition user_agent : string :=
  "Mozilla/5.0 (Windows NT 10.0; Win64; x64) AppleWebKit/537.36".

(** [response.raise_for_status()]: an [HTTPError], which is a
    [RequestException], for a status from 400 to 599. *)
Definition raise_for_status (r : Response) : exception + unit :=
  if (400 <=? status_code r) && (status_code r <? 500) then
    inl (HTTPError (pretty (status_code r) +:+ " Client Error: " +:+ reason r
                    +:+ " for url: " +:+ resp_url r))
  else if (500 <=? status_code r) && (status_code r <? 600) then
    inl (HTTPError (pretty (status_code r) +:+ " Server Error: " +:+ reason r
                    +:+ " for url: " +:+ resp_url r))
  else inr tt.

Section Scraper.

(** [BeautifulSoup(content, 'html.parser')]: the parser is a function of
    the bytes it is given; it returns the document or raises. *)
Variable BeautifulSoup : bytes -> exception + Soup.

Variable w : World.

(** [requests.get(url, headers=headers, timeout=10)] *)
Definition get (url : string) : M Response :=
  fun s =>
    let s' := {| all_data := all_data s;
                 trace := trace s ++ [Get url user_agent 10];
                 n_requests := S (n_requests s) |} in
    match requests_get w (n_requests s) url with
    | inl e => (inl e, s')
    | inr r => (inr r, s')
    end.

(** [time.strftime('%Y-%m-%d %H:%M:%S')] *)
Definition time_strftime : M string :=
  fun s => (inr (strftime w (n_requests s)), s).

(** [all_data.append(subreddit_data)] *)
Definition all_data_append (d : subreddit_data) : M unit :=
  fun s => (inr tt, {| all_data := all_data s ++ [d];
                       trace := trace s;
                       n_requests := n_requests s |}).

(** The body of the [try] (main.py 84-181). *)
Definition try_body (url subreddit_name : string) : M unit :=
  response ← get url;
  lift (raise_for_status response);;
  soup ← lift (BeautifulSoup (content response));
  now ← time_strftime;
  let title := match soup_title soup with
               | Some t => t
               | None => Some "No title"
               end in
  let topics := extract_topics soup in
  let discussions := extract_discussions soup in
  all_data_append {| subreddit := subreddit_name;
                     sd_url := url;
                     sd_title := title;
                     scraped_at := now;
                     python_topics := topics;
                     discussions := discussions |};;
  time_sleep 2.

(** The two handlers (main.py 184-195): a [RequestException] is matched
    by the first clause, any other exception by the second. *)
Definition handler (subreddit_name : string) (e : exception) : M unit :=
  if is_RequestException e then
    print ("Error fetching r/" +:+ subreddit_name +:+ ": " +:+ str_of_exception e)
  else
    print ("Error parsing r/" +:+ subreddit_name +:+ ": " +:+ str_of_exception e).

(** The body of [for url in subreddits]. *)
Definition loop_body (url : string) : M unit :=
  let subreddit_name := PyStr.last_item (PyStr.split "/" url) in
  print ("Scraping r/" +:+ subreddit_name +:+ "...");;
  try_except (try_body url subreddit_name) (handler subreddit_name).

Definition scrape_loop (targets : list string) : M unit :=
  for_each targets loop_body.

(** [all_data = []] *)
Definition all_data_init : M unit :=
  fun s => (inr tt, {| all_data := [];
                       trace := trace s;
                       n_requests := n_requests s |}).

(** Reading the local variable [all_data]. *)
Definition read_all_data : M (list subreddit_data) :=
  fun s => (inr (all_data s), s).

Definition scrape_reddit_python_topics : M (list subreddit_data) :=
  all_data_init;;
  scrape_loop subreddits;;
  read_all_data.

(** *** [main] (main.py 276-333, copy.py 89-109) *)

Definition nl : string := String "010" EmptyString.

(** The line [main] prints for one entry of [data]. *)
Definition subreddit_line (d : subreddit_data) : string :=
  "r/" +:+ subreddit d +:+ ": " +:+ pretty (length (python_topics d))
  +:+ " Python topics, " +:+ pretty (length (discussions d)) +:+ " discussions".

(** [for subreddit_data in data] with its two running totals. *)
Fixpoint summary_loop (data : list subreddit_data) (totals : nat * nat)
  : M (nat * nat) :=
  match data with
  | [] => mret totals
  | d :: data' =>
      let topics_count := length (python_topics d) in
      let discussions_count := length (discussions d) in
      let totals' := (fst totals + topics_count, snd totals + discussions_count)%nat in
      print (subreddit_line d);;
      summary_loop data' totals'
  end.

Definition total_line (totals : nat * nat) (n : nat) : string :=
  nl +:+ "Total: " +:+ pretty (fst totals) +:+ " Python topics, "
  +:+ pretty (snd totals) +:+ " discussions across " +:+ pretty n
  +:+ " subreddits".

(** [save_python_data(data)] writes two files and catches what that
    raises; it is one event here. *)
Definition save_python_data (data : list subreddit_data) : M unit :=
  emit (Save data).

Definition main : M unit :=
  print "Reddit Python Topics Analyzer";;
  print "========================================";;
  data ← scrape_reddit_python_topics;
  match data with
  | _ :: _ =>
      print (nl +:+ "Analysis Results:");;
      totals ← summary_loop data (0, 0)%nat;
      print (total_line totals (length data));;
      save_python_data data;;
      print (nl +:+ "Python topics analysis completed successfully!");;
      print "Check python_topics.json and python_topics.csv for detailed results."
  | [] =>
      print "Analysis failed. Check your internet connection and try again."
  end.

End Scraper.

(** The state in which the function is entered: [all_data = []], nothing
    done yet. *)
Definition initial : state := {| all_data := []; trace := []; n_requests := 0 |}.

(** A whole call: what the caller gets, and what was done to the world. *)
Definition run (parser : bytes -> exception + Soup) (w : World)
  : (exception + list subreddit_data) * list event :=
  let '(r, s) := scrape_reddit_python_topics parser w initial in (r, trace s).

(** A whole run of the script. *)
Definition run_main (parser : bytes -> exception + Soup) (w : World)
  : (exception + unit) * list event :=
  let '(r, s) := main parser w initial in (r, trace s).

(** ** Reading a trace *)

(** The requests of a trace, in the order they were issued. *)
Definition requests_of (tr : list event) : list string :=
  omap (fun e => match e with Get url _ _ => Some url | _ => None end) tr.

(** The lines printed, in order. *)
Definition lines_of (tr : list event) : list string :=
  omap (fun e => match e with Print l => Some l | _ => None end) tr.

(** A line by which a handler of the loop reports a failed target. *)
Definition is_failure_line (l : string) : bool :=
  PyStr.startswith "Error fetching r/" l || PyStr.startswith "Error parsing r/" l.

(** A line by which [main] reports a scraped subreddit. *)
Definition is_success_line (l : string) : bool := PyStr.startswith "r/" l.

Definition failure_lines (tr : list event) : list string :=
  List.filter is_failure_line (lines_of tr).

Definition success_lines (tr : list event) : list string :=
  List.filter is_success_line (lines_of tr).

(** The number of targets a run reports as failed, and as scraped. *)
Definition failureCount (tr : list event) : nat := length (failure_lines tr).

Definition successCount (tr : list event) : nat := length (success_lines tr).

(** Politeness of a trace: every request but the first is issued after a
    pause of at least two seconds since the request before it. All the
    targets of [subreddits] are on the one origin [www.reddit.com]. *)
Fixpoint polite_from (paused : bool) (tr : list event) : bool :=
  match tr with
  | [] => true
  | Get _ _ _ :: tr' => paused && polite_from false tr'
  | Sleep n :: tr' => polite_from (paused || (2 <=? n)) tr'
  | _ :: tr' => polite_from paused tr'
  end.

Definition polite (tr : list event) : bool := polite_from true tr.

(** The seconds a run spends in [time.sleep]. *)
Definition slept (tr : list event) : Z :=
  foldr (fun e t => match e with Sleep n => n + t | _ => t end) 0 tr.

(** ** The rules of the extractor in the words of the specification *)

(** [sub] occurs in [s]. *)
Definition substring (sub s : string) : Prop :=
  exists before after, s = before +:+ sub +:+ after.

(** A heading is a topic: its text is longer than 3 characters and its
    lower-cased text contains one of the keywords. *)
Definition topic_rule (text : string) : Prop :=
  3 < PyStr.len text /\
  exists keyword, keyword ∈ keywords /\ substring keyword (PyStr.lower text).

(** A link counts for a discussion: its text is not empty and longer than
    one character and its target contains the marker. *)
Definition discussion_rule (text url : string) : Prop :=
  text <> EmptyString /\ 1 < PyStr.len text /\ substring "/comments/" url.

Definition topic_of (heading : Tag) : topic :=
  {| t_title := get_text heading; t_type := "python_topic" |}.

Definition discussion_of (link : Tag * string) : discussion :=
  {| d_title := discussion_title (get_text (fst link));
     d_url := snd link;
     d_type := "discussion" |}.

(** What the loop over the links keeps true: [seen_urls] is the set of
    the URLs of [discussions], and these are pairwise distinct. *)
Definition links_inv (st : gset string * list discussion) : Prop :=
  (forall u, u ∈ fst st <-> u ∈ d_url <$> snd st) /\ NoDup (d_url <$> snd st).

(** ** The outcome of one target, read off the world *)

(** What the [try] block makes of the request issued for [url] when [k]
    requests came before it: the entry it appends, or the exception that
    leaves it.  [loop_body_run] below shows that this is what [loop_body]
    does. *)
Definition attempt (parser : bytes -> exception + Soup) (w : World)
    (k : nat) (url : string) : exception + subreddit_data :=
  match requests_get w k url with
  | inl e => inl e
  | inr response =>
      match raise_for_status response with
      | inl e => inl e
      | inr _ =>
          match parser (content response) with
          | inl e => inl e
          | inr soup =>
              inr {| subreddit := PyStr.last_item (PyStr.split "/" url);
                     sd_url := url;
                     sd_title := match soup_title soup with
                                 | Some t => t
                                 | None => Some "No title"
                                 end;
                     scraped_at := strftime w (S k);
                     python_topics := extract_topics soup;
                     discussions := extract_discussions soup |}
          end
      end
  end.

(** The events of one turn of the loop. *)
Definition events_of (url : string) (o : exception + subreddit_data) : list event :=
  let subreddit_name := PyStr.last_item (PyStr.split "/" url) in
  [ Print ("Scraping r/" +:+ subreddit_name +:+ "..."); Get url user_agent 10 ] ++
  match o with
  | inr _ => [ Sleep 2 ]
  | inl e =>
      [ Print ((if is_RequestException e then "Error fetching r/" else "Error parsing r/")
               +:+ subreddit_name +:+ ": " +:+ str_of_exception e) ]
  end.

(** The outcomes of the targets, in the order of the list, the first
    request being the [k]-th. *)
Fixpoint attempts (parser : bytes -> exception + Soup) (w : World)
    (k : nat) (targets : list string) : list (string * (exception + subreddit_data)) :=
  match targets with
  | [] => []
  | url :: targets' => (url, attempt parser w k url) :: attempts parser w (S k) targets'
  end.

Definition entry_of (o : string * (exception + subreddit_data)) : option subreddit_data :=
  match snd o with
  | inr d => Some d
  | inl _ => None
  end.

(** The state after one turn of the loop that started in [s]. *)
Definition after_turn (parser : bytes -> exception + Soup) (w : World)
    (s : state) (url : string) : state :=
  let o := attempt parser w (n_requests s) url in
  {| all_data := all_data s ++ match o with inr d => [d] | inl _ => [] end;
     trace := trace s ++ events_of url o;
     n_requests := S (n_requests s) |}.

(** The state after the loop over [targets] that started in [s]. *)
Definition after_loop (parser : bytes -> exception + Soup) (w : World)
    (s : state) (targets : list string) : state :=
  let os := attempts parser w (n_requests s) targets in
  {| all_data := all_data s ++ omap entry_of os;
     trace := trace s ++ concat ((fun o => events_of (fst o) (snd o)) <$> os);
     n_requests := (n_requests s + length targets)%nat |}.

(** The totals the summary loop ends with. *)
Definition totals_after (data : list subreddit_data) (totals : nat * nat) : nat * nat :=
  fold_left (fun t d => (fst t + length (python_topics d),
                         snd t + length (discussions d))%nat) data totals.

(** What [main] prints after the scraper returned [data]. *)
Definition report_of (data : list subreddit_data) : list event :=
  match data with
  | [] => [ Print "Analysis failed. Check your internet connection and try again." ]
  | _ :: _ =>
      [ Print (nl +:+ "Analysis Results:") ] ++
      (Print <$> (subreddit_line <$> data)) ++
      [ Print (total_line (totals_after data (0, 0)%nat) (length data));
        Save data;
        Print (nl +:+ "Python topics analysis completed successfully!");
        Print "Check python_topics.json and python_topics.csv for detailed results." ]
  end.

(** The fetch of the [k]-th request fails with [e]: [requests.get] raises
    a [RequestException], or the response has an error status. *)
Definition fetch_fails (w : World) (k : nat) (url : string) (e : exception) : Prop :=
  (requests_get w k url = inl e /\ is_RequestException e = true) \/
  (exists r, requests_get w k url = inr r /\ raise_for_status r = inl e).

(** ** Sample documents, parser and worlds *)

Module Fixtures.

Definition heading (text : string) : Tag :=
  {| tag_name := "h2"; get_text := text; href := None |}.

Definition anchor (text url : string) : Tag :=
  {| tag_name := "a"; get_text := text; href := Some url |}.

(** A page with two headings and four links, two of them to the same
    discussion. *)
Definition page : Soup :=
  {| soup_title := Some (Some "r/Python");
     descendants :=
       [ heading "Learning Python Basics";
         heading "Hi";
         anchor "First post" "/r/Python/comments/1/first";
         anchor "x" "/r/Python/comments/2/second";
         anchor "First post again" "/r/Python/comments/1/first";
         anchor "About" "/r/Python/about" ] |}.

(** Two links whose targets differ by the case of one letter. *)
Definition case_page : Soup :=
  {| soup_title := None;
     descendants :=
       [ anchor "Upper" "/r/Python/comments/A";
         anchor "Lower" "/r/Python/comments/a" ] |}.

(** A link text of 110 characters. *)
Definition long_text : string :=
  "A very long discussion title that keeps going well past the limit of one hundred characters set by the scraper".

Definition long_link : Tag := anchor long_text "/r/Python/comments/3/long".

Definition long_page : Soup :=
  {| soup_title := None; descendants := [ long_link ] |}.

(** A link to a discussion whose text is one character long. *)
Definition short_link : Tag := anchor "x" "/r/Python/comments/2/second".

(** A parser that reads every document as [page]. *)
Definition parser (_ : bytes) : exception + Soup := inr page.

Definition ok (url : string) : Response :=
  {| status_code := 200; reason := "OK"; resp_url := url; content := [] |}.

(** Every request is answered with status 200. *)
Definition all_ok : World :=
  {| requests_get := fun _ url => inr (ok url);
     strftime := fun _ => "2025-01-01 00:00:00" |}.

(** The second request fails with a connection error, the two others
    are answered with status 200. *)
Definition second_down : World :=
  {| requests_get := fun k url =>
       if decide (k = 1%nat) then inl (ConnectionError "Connection refused")
       else inr (ok url);
     strftime := fun _ => "2025-01-01 00:00:00" |}.

(** The first request is answered with status 404. *)
Definition first_404 : World :=
  {| requests_get := fun k url =>
       if decide (k = 0%nat)
       then inr {| status_code := 404; reason := "Not Found";
                   resp_url := url; content := [] |}
       else inr (ok url);
     strftime := fun _ => "2025-01-01 00:00:00" |}.

End Fixtures.

(** ** [save_python_data] (main.py 201-274, copy.py 63-87) *)

Module Persistence.

(** The file system under the function.  Each field tells whether a call
    returns ([None]) or raises ([Some e]): [open(filename, 'w', ...)],
    [json.dump] into the file, the call of [writer.writerow] on the file
    when [k] rows were written by this call of the function before it,
    and the closing of the file when its [with] block is left. *)
Record Disk := {
  open_raises : string -> option exception;
  dump_raises : string -> option exception;
  writerow_raises : string -> nat -> option exception;
  close_raises : string -> option exception
}.

(** What a call of the function does, in order.  An event stands for a
    call that returned, but [Closed]: the file is closed when its [with]
    block is left, also when the closing raises. *)
Inductive file_event :=
| Printed (line : string)
| Opened (filename : string)
| Dumped (filename : string) (data : list subreddit_data)
| Row (filename : string) (fields : list string)
| Closed (filename : string).

Record fstate := {
  log : list file_event;
  n_rows : nat
}.

Definition F (A : Type) : Type := fstate -> (exception + A) * fstate.

#[export] Instance F_ret : MRet F := fun A a s => (inr a, s).

#[export] Instance F_bind : MBind F := fun A B k m s =>
  match m s with
  | (inl e, s') => (inl e, s')
  | (inr a, s') => k a s'
  end.

(** [try: m except Exception as e: h e] *)
Definition try_except {A} (m : F A) (h : exception -> F A) : F A :=
  fun s => match m s with
           | (inl e, s') => h e s'
           | (inr a, s') => (inr a, s')
           end.

(** [for x in l: body x] *)
Fixpoint for_each {X} (l : list X) (body : X -> F unit) : F unit :=
  match l with
  | [] => mret tt
  | x :: l' => body x ;; for_each l' body
  end.

Definition record (e : file_event) : F unit :=
  fun s => (inr tt, {| log := log s ++ [e]; n_rows := n_rows s |}).

Definition print (line : string) : F unit := record (Printed line).

(** The first row of the CSV file. *)
Definition header : list string :=
  ["Subreddit"; "Type"; "Title"; "URL"; "Scraped At"].

Section Save.

Variable disk : Disk.

(** [with open(filename, 'w', ...) as f: body]: when [open] raises, the
    body is not run; otherwise the file is closed when the body is
    left, by its end or by an exception, and an exception of the closing
    is the one that leaves the block. *)
Definition with_open (filename : string) (body : F unit) : F unit :=
  fun s =>
    match open_raises disk filename with
    | Some e => (inl e, s)
    | None =>
        let '(r, s') := body {| log := log s ++ [Opened filename];
                                n_rows := n_rows s |} in
        let s'' := {| log := log s' ++ [Closed filename]; n_rows := n_rows s' |} in
        match close_raises disk filename with
        | Some e => (inl e, s'')
        | None => (r, s'')
        end
    end.

(** [json.dump(data, f, indent=2, ensure_ascii=False)] *)
Definition json_dump (filename : string) (data : list subreddit_data) : F unit :=
  fun s =>
    match dump_raises disk filename with
    | Some e => (inl e, s)
    | None => (inr tt, {| log := log s ++ [Dumped filename data];
                          n_rows := n_rows s |})
    end.

(** [writer.writerow(fields)] *)
Definition writerow (filename : string) (fields : list string) : F unit :=
  fun s =>
    match writerow_raises disk filename (n_rows s) with
    | Some e => (inl e, s)
    | None => (inr tt, {| log := log s ++ [Row filename fields];
                          n_rows := S (n_rows s) |})
    end.

(** The body of the second [with] (main.py 245-269). *)
Definition write_csv (filename_csv : string) (data : list subreddit_data) : F unit :=
  writerow filename_csv header;;
  for_each data (fun subreddit_data =>
    let subreddit := subreddit subreddit_data in
    let scraped_at := scraped_at subreddit_data in
    for_each (python_topics subreddit_data) (fun topic =>
      writerow filename_csv [subreddit; t_type topic; t_title topic; ""; scraped_at]);;
    for_each (discussions subreddit_data) (fun discussion =>
      writerow filename_csv [subreddit; d_type discussion; d_title discussion;
                             d_url discussion; scraped_at])).

Definition save_python_data (data : list subreddit_data)
    (filename_json filename_csv : string) : F unit :=
  match data with
  | [] => print "No data to save"
  | _ :: _ =>
      try_except
        (with_open filename_json (json_dump filename_json data);;
         print ("Python topics data saved to " +:+ filename_json))
        (fun e => print ("Error saving JSON: " +:+ str_of_exception e));;
      try_except
        (with_open filename_csv (write_csv filename_csv data);;
         print ("Python topics data saved to " +:+ filename_csv))
        (fun e => print ("Error saving CSV: " +:+ str_of_exception e))
  end.

End Save.

(** A whole call, from an empty log. *)
Definition save (disk : Disk) (data : list subreddit_data)
    (filename_json filename_csv : string) : (exception + unit) * list file_event :=
  let '(r, s) := save_python_data disk data filename_json filename_csv
                   {| log := []; n_rows := 0 |} in
  (r, log s).

(** *** Reading a log *)


(** The lines printed. *)
Definition printed (l : list file_event) : list string :=
  omap (fun e => match e with Printed line => Some line | _ => None end) l.

(** The files open at the end of a log that started with the files
    [open] open: [Opened] adds the file, [Closed] takes it away. *)
Fixpoint open_after (open : list string) (l : list file_event) : list string :=
  match l with
  | [] => open
  | Opened f :: l' => open_after (f :: open) l'
  | Closed f :: l' => open_after (List.remove String.eq_dec f open) l'
  | _ :: l' => open_after open l'
  end.

(** *** The rows of the CSV file *)

Definition topic_row (sd : subreddit_data) (t : topic) : list string :=
  [subreddit sd; t_type t; t_title t; ""; scraped_at sd].

Definition discussion_row (sd : subreddit_data) (d : discussion) : list string :=
  [subreddit sd; d_type d; d_title d; d_url d; scraped_at sd].

Definition subreddit_rows (sd : subreddit_data) : list (list string) :=
  (topic_row sd <$> python_topics sd) ++ (discussion_row sd <$> discussions sd).

(** The header, then the rows of each entry: its topics, then its
    discussions. *)
Definition csv_rows (data : list subreddit_data) : list (list string) :=
  header :: concat (subreddit_rows <$> data).

(** The rows that get written when [rows] are written one after the
    other, [k] rows being written before them, and the exception that
    stops the writing, if one does. *)
Fixpoint written (disk : Disk) (filename : string) (k : nat)
    (rows : list (list string)) : list (list string) * option exception :=
  match rows with
  | [] => ([], None)
  | r :: rows' =>
      match writerow_raises disk filename k with
      | Some e => ([], Some e)
      | None =>
          let '(ws, o) := written disk filename (S k) rows' in (r :: ws, o)
      end
  end.

(** What the first [try] adds to the log, read off the disk
    ([json_part_run] below shows it). *)
Definition json_log (disk : Disk) (filename : string) (data : list subreddit_data)
  : list file_event :=
  match open_raises disk filename with
  | Some e => [Printed ("Error saving JSON: " +:+ str_of_exception e)]
  | None =>
      Opened filename ::
      match dump_raises disk filename with
      | None => [Dumped filename data]
      | Some _ => []
      end ++
      [Closed filename;
       Printed match close_raises disk filename, dump_raises disk filename with
               | Some e, _ | None, Some e => "Error saving JSON: " +:+ str_of_exception e
               | None, None => "Python topics data saved to " +:+ filename
               end]
  end.

(** What the second [try] adds to the log ([csv_part_run] below). *)
Definition csv_log (disk : Disk) (filename : string) (data : list subreddit_data)
  : list file_event :=
  match open_raises disk filename with
  | Some e => [Printed ("Error saving CSV: " +:+ str_of_exception e)]
  | None =>
      Opened filename ::
      (Row filename <$> fst (written disk filename 0 (csv_rows data))) ++
      [Closed filename;
       Printed match close_raises disk filename,
                     snd (written disk filename 0 (csv_rows data)) with
               | Some e, _ | None, Some e => "Error saving CSV: " +:+ str_of_exception e
               | None, None => "Python topics data saved to " +:+ filename
               end]
  end.

(** *** [main] with the calls of [save_python_data] written out *)

Definition filename_json : string := "python_topics.json".
Definition filename_csv : string := "python_topics.csv".

(** An event of a run of the script. *)
Inductive script_event :=
| OfRun (e : event)
| OfSave (e : file_event).

(** The events of a run of [main] on a disk: the call
    [save_python_data(data)] that [Save data] stands for is replaced by
    what that call does, with the default file names. *)
Definition expand (disk : Disk) (e : event) : list script_event :=
  match e with
  | Save data => OfSave <$> snd (save disk data filename_json filename_csv)
  | _ => [OfRun e]
  end.

Definition run_script (parser : bytes -> exception + Soup) (w : World) (disk : Disk)
  : list script_event :=
  concat (expand disk <$> snd (run_main parser w)).

(** Every line a run of the script prints. *)
Definition script_lines (l : list script_event) : list string :=
  omap (fun e => match e with
                 | OfRun (Print line) | OfSave (Printed line) => Some line
                 | _ => None
                 end) l.

(** The lines [main] prints after the scraper returned [data], the
    lines of [save_python_data] among them. *)
Definition report_lines (disk : Disk) (data : list subreddit_data) : list string :=
  match data with
  | [] => [ "Analysis failed. Check your internet connection and try again." ]
  | _ :: _ =>
      [ nl +:+ "Analysis Results:" ] ++ (subreddit_line <$> data) ++
      [ total_line (totals_after data (0, 0)%nat) (length data) ] ++
      printed (snd (save disk data filename_json filename_csv)) ++
      [ nl +:+ "Python topics analysis completed successfully!";
        "Check python_topics.json and python_topics.csv for detailed results." ]
  end.

(** *** Sample disks *)


(** The JSON file cannot be opened. *)
Definition json_denied : Disk :=
  {| open_raises := fun f =>
       if decide (f = filename_json) then Some (OtherException "Permission denied")
       else None;
     dump_raises := fun _ => None;
     writerow_raises := fun _ _ => None;
     close_raises := fun _ => None |}.

(** No file can be opened. *)
Definition read_only : Disk :=
  {| open_raises := fun _ => Some (OtherException "Read-only file system");
     dump_raises := fun _ => None;
     writerow_raises := fun _ _ => None;
     close_raises := fun _ => None |}.


(** Two entries: the first with a topic and two discussions, the second
    with nothing. *)
Definition sample_data : list subreddit_data :=
  [ {| subreddit := "Python"; sd_url := "https://www.reddit.com/r/Python";
       sd_title := Some "r/Python"; scraped_at := "2025-01-01 00:00:00";
       python_topics := [ {| t_title := "Learning Python Basics";
                             t_type := "python_topic" |} ];
       discussions := [ {| d_title := "First post";
                           d_url := "/r/Python/comments/1/first";
                           d_type := "discussion" |};
                        {| d_title := "Second, with a comma";
                           d_url := "/r/Python/comments/2/second";
                           d_type := "discussion" |} ] |};
    {| subreddit := "programming"; sd_url := "https://www.reddit.com/r/programming";
       sd_title := None; scraped_at := "2025-01-01 00:00:02";
       python_topics := []; discussions := [] |} ].

End Persistence.

(** * Properties *)

(** ** Strings *)

Section StringFacts.

Lemma append_length (a b : string) :
  String.length (a +:+ b) = (String.length a + String.length b)%nat.
Proof. induction a as [|c a IH]; simpl; [reflexivity | now f_equal]. Qed.

Lemma append_assoc (a b c : string) : (a +:+ b) +:+ c = a +:+ b +:+ c.
Proof. induction a as [|x a IH]; simpl; [reflexivity | now f_equal]. Qed.

Lemma startswith_spec (p s : string) :
  PyStr.startswith p s = true <-> exists after, s = p +:+ after.
Proof.
  revert s. induction p as [|a p IH]; intros s; simpl.
  - split; [intros _; now exists s | reflexivity].
  - destruct s as [|b s].
    + split; [discriminate | intros [after H]; discriminate].
    + rewrite andb_true_iff, Ascii.eqb_eq, IH. split.
      * intros [-> [after ->]]. now exists after.
      * intros [after H]. injection H as -> ->. split; [reflexivity | now exists after].
Qed.

Lemma contains_spec (sub s : string) :
  PyStr.contains sub s = true <-> substring sub s.
Proof.
  unfold substring. induction s as [|c s IH].
  - simpl. rewrite orb_false_r, startswith_spec. split.
    + intros [after H]. now exists EmptyString, after.
    + intros [before [after H]]. destruct before; [now exists after | discriminate].
  - cbn [PyStr.contains]. rewrite orb_true_iff, startswith_spec, IH. split.
    + intros [[after H] | [before [after H]]].
      * now exists EmptyString, after.
      * exists (String c before), after. simpl. now rewrite H.
    + intros [before [after H]]. destruct before as [|x before].
      * left. now exists after.
      * right. simpl in H. injection H as _ ->. now exists before, after.
Qed.

Lemma truthy_spec (s : string) : PyStr.truthy s = true <-> s <> EmptyString.
Proof. destruct s; simpl; split; congruence. Qed.

Lemma slice_to_length (n : nat) (s : string) :
  (n <= String.length s)%nat -> String.length (PyStr.slice_to n s) = n.
Proof.
  revert s. induction n as [|n IH]; intros [|c s]; simpl; intros H; try lia.
  rewrite IH; lia.
Qed.

Lemma slice_to_prefix (n : nat) (s : string) :
  exists rest, s = PyStr.slice_to n s +:+ rest.
Proof.
  revert s. induction n as [|n IH]; intros s; simpl.
  - now exists s.
  - destruct s as [|c s]; [now exists EmptyString |].
    destruct (IH s) as [rest H]. exists rest. simpl. now rewrite <- H.
Qed.

End StringFacts.

(** ** The extraction rules *)

Section ExtractionFacts.

Lemma any_keyword_spec (text : string) :
  any_keyword text = true <->
  exists keyword, keyword ∈ keywords /\ substring keyword (PyStr.lower text).
Proof.
  unfold any_keyword. rewrite existsb_exists. split.
  - intros [k [Hin Hk]]. exists k. split.
    + now apply list_elem_of_In.
    + now apply contains_spec.
  - intros [k [Hin Hk]]. exists k. split.
    + now apply list_elem_of_In.
    + now apply contains_spec.
Qed.

Lemma topic_rule_spec (text : string) :
  PyStr.truthy text && (3 <? PyStr.len text) && any_keyword text = true
  <-> topic_rule text.
Proof.
  unfold topic_rule.
  rewrite !andb_true_iff, Z.ltb_lt, any_keyword_spec, truthy_spec. split.
  - intros [[_ Hlen] Hk]. now split.
  - intros [Hlen Hk]. repeat split; try assumption.
    intros ->. unfold PyStr.len in Hlen. simpl in Hlen. lia.
Qed.

#[export] Instance topic_rule_dec (text : string) : Decision (topic_rule text).
Proof.
  destruct (PyStr.truthy text && (3 <? PyStr.len text) && any_keyword text) eqn:E.
  - left. now apply topic_rule_spec.
  - right. intros H. apply topic_rule_spec in H. congruence.
Defined.

Lemma heading_step_spec (topics : list topic) (heading : Tag) :
  heading_step topics heading =
  if decide (topic_rule (get_text heading)) then topics ++ [topic_of heading]
  else topics.
Proof.
  unfold heading_step. destruct (decide _) as [H | H].
  - apply topic_rule_spec in H. apply andb_true_iff in H as [-> ->]. reflexivity.
  - destruct (PyStr.truthy _ && _) eqn:E1; [|reflexivity].
    destruct (any_keyword _) eqn:E2; [|reflexivity].
    exfalso. apply H, topic_rule_spec. now rewrite E1, E2.
Qed.

Lemma fold_heading_step (headings : list Tag) (topics : list topic) :
  fold_left heading_step headings topics =
  topics ++ (topic_of <$> filter (fun h => topic_rule (get_text h)) headings).
Proof.
  revert topics. induction headings as [|h hs IH]; intros topics; simpl.
  - now rewrite app_nil_r.
  - rewrite IH, heading_step_spec, filter_cons.
    destruct (decide _); simpl; [now rewrite <- app_assoc | reflexivity].
Qed.

Lemma discussion_rule_spec (text url : string) :
  PyStr.truthy text && (1 <? PyStr.len text) && PyStr.contains "/comments/" url = true
  <-> discussion_rule text url.
Proof.
  unfold discussion_rule.
  rewrite !andb_true_iff, Z.ltb_lt, contains_spec, truthy_spec. tauto.
Qed.

#[export] Instance discussion_rule_dec (text url : string) :
  Decision (discussion_rule text url).
Proof.
  destruct (PyStr.truthy text && (1 <? PyStr.len text)
            && PyStr.contains "/comments/" url) eqn:E.
  - left. now apply discussion_rule_spec.
  - right. intros H. apply discussion_rule_spec in H. congruence.
Defined.

(** The step of the loop over the links, by cases. *)
Lemma link_step_spec (seen_urls : gset string) (ds : list discussion)
    (link : Tag * string) :
  link_step (seen_urls, ds) link =
  if decide (discussion_rule (get_text (fst link)) (snd link) /\ snd link ∉ seen_urls)
  then ({[ snd link ]} ∪ seen_urls, ds ++ [discussion_of link])
  else (seen_urls, ds).
Proof.
  unfold link_step.
  destruct (decide _) as [[Hr Hn] | H].
  - apply discussion_rule_spec in Hr. rewrite Hr.
    rewrite bool_decide_eq_false_2 by assumption. reflexivity.
  - destruct (_ && negb _) eqn:E; [|reflexivity].
    exfalso. apply H. apply andb_true_iff in E as [E1 E2]. split.
    + now apply discussion_rule_spec.
    + apply negb_true_iff, bool_decide_eq_false in E2. exact E2.
Qed.

Lemma links_inv_init : links_inv (∅, []).
Proof.
  split; simpl.
  - intros u. split; intros H; [now apply not_elem_of_empty in H | inversion H].
  - constructor.
Qed.

Lemma links_inv_step (st : gset string * list discussion) (link : Tag * string) :
  links_inv st -> links_inv (link_step st link).
Proof.
  destruct st as [seen ds]. intros [Hseen Hnd]. rewrite link_step_spec.
  destruct (decide _) as [[Hr Hn] | H]; [|now split].
  simpl in *. split; simpl.
  - intros u. rewrite fmap_app, elem_of_app, elem_of_union, elem_of_singleton.
    simpl. rewrite list_elem_of_singleton, Hseen. tauto.
  - rewrite fmap_app. apply NoDup_app. split; [assumption|]. split.
    + intros u Hu. simpl. rewrite list_elem_of_singleton. intros ->.
      apply Hn, Hseen, Hu.
    + simpl. apply NoDup_singleton.
Qed.

Lemma links_inv_fold (links : list (Tag * string)) (st : gset string * list discussion) :
  links_inv st -> links_inv (fold_left link_step links st).
Proof.
  revert st. induction links as [|l links IH]; intros st H; simpl; [assumption|].
  apply IH, links_inv_step, H.
Qed.

(** A URL once seen stays seen. *)
Lemma seen_fold_mono (links : list (Tag * string)) (st : gset string * list discussion)
    (u : string) :
  u ∈ fst st -> u ∈ fst (fold_left link_step links st).
Proof.
  revert st. induction links as [|l links IH]; intros [seen ds] H;
    cbn [fold_left]; [assumption|].
  apply IH. rewrite link_step_spec. destruct (decide _); simpl in *; [|assumption].
  apply elem_of_union. now right.
Qed.

(** Every link that satisfies the rule has its URL seen at the end. *)
Lemma seen_fold_complete (links : list (Tag * string)) (st : gset string * list discussion)
    (link : Tag * string) :
  link ∈ links -> discussion_rule (get_text (fst link)) (snd link) ->
  snd link ∈ fst (fold_left link_step links st).
Proof.
  revert st. induction links as [|l links IH]; intros [seen ds] Hin Hr.
  - inversion Hin.
  - cbn [fold_left]. apply elem_of_cons in Hin as [<- | Hin].
    + apply seen_fold_mono. rewrite link_step_spec.
      destruct (decide _) as [_ | H]; simpl.
      { apply elem_of_union. left. now apply elem_of_singleton. }
      destruct (decide (snd link ∈ seen)) as [Hs | Hs]; [assumption|].
      exfalso. apply H. now split.
    + now apply IH.
Qed.

(** Every discussion at the end was there at the start or was made from
    a link that satisfies the rule. *)
Lemma discussion_origin (links : list (Tag * string)) (st : gset string * list discussion)
    (d : discussion) :
  d ∈ snd (fold_left link_step links st) ->
  d ∈ snd st \/
  exists link, link ∈ links /\ d = discussion_of link /\
               discussion_rule (get_text (fst link)) (snd link).
Proof.
  revert st. induction links as [|l links IH]; intros [seen ds] H; cbn [fold_left] in H.
  - now left.
  - apply IH in H as [H | [link [Hin [Hd Hr]]]].
    + rewrite link_step_spec in H. destruct (decide _) as [[Hr Hn] | _]; simpl in H.
      * apply elem_of_app in H as [H | H]; [now left|].
        apply list_elem_of_singleton in H. right. exists l.
        split; [apply elem_of_cons; now left | now split].
      * now left.
    + right. exists link. split; [apply elem_of_cons; now right | now split].
Qed.

(** A link whose text is at most one character long changes nothing. *)
Lemma link_step_short (st : gset string * list discussion) (link : Tag * string) :
  PyStr.len (get_text (fst link)) <= 1 -> link_step st link = st.
Proof.
  destruct st as [seen ds]. intros H. rewrite link_step_spec.
  destruct (decide _) as [[[_ [Hlen _]] _] | _]; [lia | reflexivity].
Qed.

End ExtractionFacts.

(** ** The loop over the targets *)

Section LoopFacts.

Variable parser : bytes -> exception + Soup.
Variable w : World.

(** One turn never leaves by an exception, and what it does is read
    off [attempt]. *)
Lemma loop_body_run (url : string) (s : state) :
  loop_body parser w url s = (inr tt, after_turn parser w s url).
Proof.
  unfold loop_body, after_turn, attempt, events_of, try_except, try_body, handler,
    print, time_sleep, emit, get, time_strftime, all_data_append, lift,
    mbind, M_bind, mret, M_ret, mthrow, M_throw.
  destruct s as [data tr k]. cbn [all_data trace n_requests].
  destruct (requests_get w k url) as [e | r].
  { destruct (is_RequestException e); cbn [all_data trace n_requests];
      now rewrite app_nil_r, <- !app_assoc. }
  destruct (raise_for_status r) as [e | []].
  { destruct (is_RequestException e); cbn [all_data trace n_requests];
      now rewrite app_nil_r, <- !app_assoc. }
  destruct (parser (content r)) as [e | soup].
  { destruct (is_RequestException e); cbn [all_data trace n_requests];
      now rewrite app_nil_r, <- !app_assoc. }
  cbn [all_data trace n_requests]. now rewrite <- !app_assoc.
Qed.

Lemma scrape_loop_run (targets : list string) (s : state) :
  scrape_loop parser w targets s = (inr tt, after_loop parser w s targets).
Proof.
  unfold scrape_loop. revert s.
  induction targets as [|url targets IH]; intros s.
  - unfold after_loop. destruct s as [data tr k]. simpl.
    now rewrite !app_nil_r, Nat.add_0_r.
  - cbn [for_each]. unfold mbind, M_bind. rewrite loop_body_run, IH.
    f_equal. unfold after_loop, after_turn. cbn [all_data trace n_requests attempts].
    f_equal.
    + rewrite <- app_assoc. f_equal. cbn [omap list_omap entry_of snd].
      unfold entry_of at 2. cbn [snd].
      now destruct (attempt parser w (n_requests s) url).
    + rewrite <- app_assoc. reflexivity.
    + simpl. lia.
Qed.

(** The whole function: it returns, and returns the entries of the
    targets whose [try] block came to its end. *)
Lemma run_spec :
  run parser w =
  (inr (omap entry_of (attempts parser w 0 subreddits)),
   concat ((fun o => events_of (fst o) (snd o)) <$> attempts parser w 0 subreddits)).
Proof.
  unfold run, scrape_reddit_python_topics, read_all_data, all_data_init, mbind, M_bind.
  cbn [initial all_data trace n_requests]. rewrite scrape_loop_run. reflexivity.
Qed.

End LoopFacts.

(** ** The report of [main] *)

Section MainFacts.

Variable parser : bytes -> exception + Soup.
Variable w : World.

Lemma summary_loop_run (data : list subreddit_data) (totals : nat * nat) (s : state) :
  summary_loop data totals s =
  (inr (totals_after data totals),
   {| all_data := all_data s;
      trace := trace s ++ (Print <$> (subreddit_line <$> data));
      n_requests := n_requests s |}).
Proof.
  revert totals s. induction data as [|d data IH]; intros totals s.
  - destruct s. simpl. unfold mret, M_ret. now rewrite app_nil_r.
  - cbn [summary_loop]. unfold mbind, M_bind, print, emit. rewrite IH.
    cbn [all_data trace n_requests fmap list_fmap totals_after fold_left].
    now rewrite <- app_assoc.
Qed.

Lemma run_main_spec :
  run_main parser w =
  (inr tt,
   [ Print "Reddit Python Topics Analyzer";
     Print "========================================" ] ++
   snd (run parser w) ++
   report_of (omap entry_of (attempts parser w 0 subreddits))).
Proof.
  rewrite run_spec. cbn [snd].
  unfold run_main, main, scrape_reddit_python_topics, read_all_data, all_data_init,
    mbind, M_bind, save_python_data, print, emit.
  cbn [initial all_data trace n_requests]. rewrite scrape_loop_run.
  unfold after_loop. cbn [all_data trace n_requests app].
  destruct (omap entry_of _) as [|d data] eqn:E; cbn [all_data trace n_requests].
  - reflexivity.
  - rewrite summary_loop_run. cbn [all_data trace n_requests].
    unfold report_of. rewrite <- ?app_assoc. reflexivity.
Qed.

End MainFacts.

(** ** The lines of a trace *)

Section Counting.

Lemma lines_of_app (tr1 tr2 : list event) :
  lines_of (tr1 ++ tr2) = lines_of tr1 ++ lines_of tr2.
Proof. unfold lines_of. apply omap_app. Qed.

Lemma requests_of_app (tr1 tr2 : list event) :
  requests_of (tr1 ++ tr2) = requests_of tr1 ++ requests_of tr2.
Proof. unfold requests_of. apply omap_app. Qed.

Lemma failure_lines_app (tr1 tr2 : list event) :
  failure_lines (tr1 ++ tr2) = failure_lines tr1 ++ failure_lines tr2.
Proof. unfold failure_lines. now rewrite lines_of_app, List.filter_app. Qed.

Lemma success_lines_app (tr1 tr2 : list event) :
  success_lines (tr1 ++ tr2) = success_lines tr1 ++ success_lines tr2.
Proof. unfold success_lines. now rewrite lines_of_app, List.filter_app. Qed.

(** One turn of the loop reports a failure exactly when its [try] block
    was left by an exception, and never prints a line of the summary. *)
Lemma failure_lines_turn (url : string) (o : exception + subreddit_data) :
  length (failure_lines (events_of url o)) =
  match o with inl _ => 1%nat | inr _ => 0%nat end.
Proof.
  destruct o as [e | d]; [|reflexivity].
  unfold events_of. destruct (is_RequestException e); reflexivity.
Qed.

Lemma success_lines_turn (url : string) (o : exception + subreddit_data) :
  success_lines (events_of url o) = [].
Proof.
  destruct o as [e | d]; [|reflexivity].
  unfold events_of. destruct (is_RequestException e); reflexivity.
Qed.

Lemma requests_of_turn (url : string) (o : exception + subreddit_data) :
  requests_of (events_of url o) = [url].
Proof. destruct o; reflexivity. Qed.

Lemma success_lines_summary (data : list subreddit_data) :
  success_lines (Print <$> (subreddit_line <$> data)) = subreddit_line <$> data.
Proof.
  induction data as [|d data IH]; [reflexivity|].
  change (Print <$> (subreddit_line <$> d :: data))
    with ([Print (subreddit_line d)] ++ (Print <$> (subreddit_line <$> data))).
  rewrite success_lines_app, IH. reflexivity.
Qed.

Lemma failure_lines_summary (data : list subreddit_data) :
  failure_lines (Print <$> (subreddit_line <$> data)) = [].
Proof.
  induction data as [|d data IH]; [reflexivity|].
  change (Print <$> (subreddit_line <$> d :: data))
    with ([Print (subreddit_line d)] ++ (Print <$> (subreddit_line <$> data))).
  rewrite failure_lines_app, IH. reflexivity.
Qed.

Lemma success_lines_report (data : list subreddit_data) :
  success_lines (report_of data) = subreddit_line <$> data.
Proof.
  destruct data as [|d data]; [reflexivity|]. unfold report_of.
  rewrite !success_lines_app, success_lines_summary.
  change (success_lines [Print (nl +:+ "Analysis Results:")]) with (@nil string).
  cbn [app]. apply app_nil_r.
Qed.

Lemma failure_lines_report (data : list subreddit_data) :
  failure_lines (report_of data) = [].
Proof.
  destruct data as [|d data]; [reflexivity|]. unfold report_of.
  rewrite !failure_lines_app, failure_lines_summary. reflexivity.
Qed.

(** Over the turns of a loop: the entries and the failure lines add up
    to the number of the targets, no line of the summary is printed,
    and the targets are requested once each, in their order. *)
Lemma count_attempts (parser : bytes -> exception + Soup) (w : World)
    (k : nat) (targets : list string) :
  let os := attempts parser w k targets in
  let tr := concat ((fun o => events_of (fst o) (snd o)) <$> os) in
  (length (omap entry_of os) + failureCount tr = length targets)%nat /\
  success_lines tr = [] /\
  requests_of tr = targets.
Proof.
  revert k. induction targets as [|url targets IH]; intros k; [now split|].
  cbn zeta in *. destruct (IH (S k)) as [H1 [H2 H3]].
  cbn [attempts fmap list_fmap concat fst snd omap list_omap].
  unfold failureCount in *.
  rewrite failure_lines_app, success_lines_app, requests_of_app, length_app,
    failure_lines_turn, success_lines_turn, requests_of_turn, H2, H3.
  split; [|now split].
  unfold entry_of at 1. cbn [snd length].
  destruct (attempt parser w k url); cbn [length]; lia.
Qed.

End Counting.

(** ** Entries and outcomes *)

Section OutcomeFacts.

Variable parser : bytes -> exception + Soup.
Variable w : World.

(** An entry is built from the document of a response with a good
    status, under the URL that was requested. *)
Lemma attempt_entry (k : nat) (url : string) (d : subreddit_data) :
  attempt parser w k url = inr d ->
  sd_url d = url /\
  exists r soup, requests_get w k url = inr r /\ raise_for_status r = inr tt /\
                 parser (content r) = inr soup /\
                 python_topics d = extract_topics soup /\
                 discussions d = extract_discussions soup.
Proof.
  unfold attempt. destruct (requests_get w k url) as [e | r] eqn:E1; [discriminate|].
  destruct (raise_for_status r) as [e | []] eqn:E2; [discriminate|].
  destruct (parser (content r)) as [e | soup] eqn:E3; [discriminate|].
  intros H. injection H as <-. split; [reflexivity|].
  exists r, soup. now repeat split.
Qed.

Lemma raise_for_status_exception (r : Response) (e : exception) :
  raise_for_status r = inl e -> is_RequestException e = true.
Proof.
  unfold raise_for_status. destruct (_ && _); [intros H; now injection H as <-|].
  destruct (_ && _); [intros H; now injection H as <-| discriminate].
Qed.

(** A failed fetch leaves the [try] block by a [RequestException]. *)
Lemma fetch_fails_attempt (k : nat) (url : string) (e : exception) :
  fetch_fails w k url e ->
  attempt parser w k url = inl e /\ is_RequestException e = true.
Proof.
  unfold attempt. intros [[H1 H2] | [r [H1 H2]]]; rewrite H1.
  - now split.
  - rewrite H2. split; [reflexivity | now apply raise_for_status_exception in H2].
Qed.

Lemma entries_elem (k : nat) (targets : list string) (d : subreddit_data) :
  d ∈ omap entry_of (attempts parser w k targets) <->
  exists i url, targets !! i = Some url /\ attempt parser w (k + i) url = inr d.
Proof.
  revert k. induction targets as [|t targets IH]; intros k.
  - split; [intros H; inversion H | intros [i [url [H _]]]; discriminate].
  - cbn [attempts omap list_omap]. unfold entry_of at 1. cbn [snd]. split.
    + intros H. destruct (attempt parser w k t) as [e | d'] eqn:E.
      * apply IH in H as [i [url [H1 H2]]]. exists (S i), url.
        split; [exact H1 | now rewrite Nat.add_succ_r].
      * apply elem_of_cons in H as [-> | H].
        -- exists 0%nat, t. split; [reflexivity | now rewrite Nat.add_0_r].
        -- apply IH in H as [i [url [H1 H2]]]. exists (S i), url.
           split; [exact H1 | now rewrite Nat.add_succ_r].
    + intros [[|i] [url [H1 H2]]].
      * injection H1 as ->. rewrite Nat.add_0_r in H2. rewrite H2.
        apply elem_of_cons. now left.
      * assert (d ∈ omap entry_of (attempts parser w (S k) targets)) as Hd.
        { apply IH. exists i, url. split; [exact H1|].
          now rewrite Nat.add_succ_r in H2. }
        destruct (attempt parser w k t); [exact Hd | apply elem_of_cons; now right].
Qed.

(** The URLs of the entries are, in order, some of the targets. *)
Lemma entries_sublist (k : nat) (targets : list string) :
  sublist (sd_url <$> omap entry_of (attempts parser w k targets)) targets.
Proof.
  revert k. induction targets as [|t targets IH]; intros k; [constructor|].
  cbn [attempts omap list_omap]. unfold entry_of at 1. cbn [snd].
  destruct (attempt parser w k t) as [e | d] eqn:E.
  - apply sublist_cons, IH.
  - apply attempt_entry in E as [<- _]. cbn [fmap list_fmap].
    apply sublist_skip, IH.
Qed.

(** The entries with a given URL, when the targets are distinct. *)
Lemma entries_of_target (k : nat) (targets : list string) (i : nat) (url : string) :
  NoDup targets -> targets !! i = Some url ->
  length (filter (fun d => sd_url d = url) (omap entry_of (attempts parser w k targets)))
  = match attempt parser w (k + i) url with inr _ => 1%nat | inl _ => 0%nat end.
Proof.
  revert k i. induction targets as [|t targets IH]; intros k i Hnd Hi; [discriminate|].
  apply NoDup_cons in Hnd as [Hnot Hnd].
  cbn [attempts omap list_omap]. unfold entry_of at 1. cbn [snd].
  destruct i as [|i].
  - injection Hi as ->. rewrite Nat.add_0_r.
    assert (filter (fun d => sd_url d = url)
              (omap entry_of (attempts parser w (S k) targets)) = []) as Hrest.
    { apply elem_of_nil_inv. intros d Hd.
      apply list_elem_of_filter in Hd as [Hu Hd].
      apply entries_elem in Hd as [j [u [Hj Ha]]].
      apply attempt_entry in Ha as [Hu' _]. rewrite Hu in Hu'. subst u.
      apply Hnot. eapply list_elem_of_lookup_2, Hj. }
    destruct (attempt parser w k url) as [e | d] eqn:E; [now rewrite Hrest|].
    apply attempt_entry in E as [E _].
    rewrite filter_cons_True by exact E. now rewrite Hrest.
  - cbn [lookup list_lookup] in Hi. rewrite Nat.add_succ_r.
    change (S (k + i)) with (S k + i)%nat.
    rewrite <- (IH (S k) i Hnd Hi).
    destruct (attempt parser w k t) as [e | d] eqn:E; [reflexivity|].
    apply attempt_entry in E as [E _].
    rewrite filter_cons_False; [reflexivity|].
    rewrite E. intros ->. apply Hnot. eapply list_elem_of_lookup_2, Hi.
Qed.

(** The events of the turn of a target are events of the run. *)
Lemma events_of_target (k : nat) (targets : list string) (i : nat) (url : string)
    (ev : event) :
  targets !! i = Some url ->
  ev ∈ events_of url (attempt parser w (k + i) url) ->
  ev ∈ concat ((fun o => events_of (fst o) (snd o)) <$> attempts parser w k targets).
Proof.
  revert k i. induction targets as [|t targets IH]; intros k i Hi Hev; [discriminate|].
  cbn [attempts fmap list_fmap concat fst snd]. apply elem_of_app.
  destruct i as [|i].
  - injection Hi as ->. rewrite Nat.add_0_r in Hev. now left.
  - right. apply (IH (S k) i Hi). now rewrite Nat.add_succ_r in Hev.
Qed.

Lemma run_data :
  fst (run parser w) = inr (omap entry_of (attempts parser w 0 subreddits)).
Proof. now rewrite run_spec. Qed.

Lemma run_data_inv (data : list subreddit_data) :
  fst (run parser w) = inr data ->
  data = omap entry_of (attempts parser w 0 subreddits).
Proof. rewrite run_data. intros H. apply (inj inr) in H. now symmetry. Qed.

Lemma run_trace :
  snd (run parser w) =
  concat ((fun o => events_of (fst o) (snd o)) <$> attempts parser w 0 subreddits).
Proof. now rewrite run_spec. Qed.

Lemma subreddits_NoDup : NoDup subreddits.
Proof. apply (bool_decide_unpack _). vm_compute. exact I. Qed.

End OutcomeFacts.

(** ** The code on the sample inputs *)

Example split_url :
  PyStr.split "/" "https://www.reddit.com/r/Python"
  = ["https:"; ""; "www.reddit.com"; "r"; "Python"].
Proof. reflexivity. Qed.

Example lower_mixed : PyStr.lower "Learning PYTHON Basics" = "learning python basics".
Proof. reflexivity. Qed.

Example page_discussions :
  extract_discussions Fixtures.page
  = [ {| d_title := "First post"; d_url := "/r/Python/comments/1/first";
         d_type := "discussion" |} ].
Proof. vm_compute. reflexivity. Qed.

Example all_ok_entries :
  (fun d => (subreddit d, sd_url d)) <$>
    match fst (run Fixtures.parser Fixtures.all_ok) with inr data => data | inl _ => [] end
  = [ ("Python", "https://www.reddit.com/r/Python");
      ("programming", "https://www.reddit.com/r/programming");
      ("learnpython", "https://www.reddit.com/r/learnpython") ].
Proof. vm_compute. reflexivity. Qed.

Example all_ok_polite : polite (snd (run Fixtures.parser Fixtures.all_ok)) = true.
Proof. vm_compute. reflexivity. Qed.

Example first_404_lines :
  lines_of (snd (run_main Fixtures.parser Fixtures.first_404)) =
  [ "Reddit Python Topics Analyzer";
    "========================================";
    "Scraping r/Python...";
    "Error fetching r/Python: 404 Client Error: Not Found for url: https://www.reddit.com/r/Python";
    "Scraping r/programming...";
    "Scraping r/learnpython...";
    nl +:+ "Analysis Results:";
    "r/programming: 1 Python topics, 1 discussions";
    "r/learnpython: 1 Python topics, 1 discussions";
    nl +:+ "Total: 2 Python topics, 2 discussions across 2 subreddits";
    nl +:+ "Python topics analysis completed successfully!";
    "Check python_topics.json and python_topics.csv for detailed results." ].
Proof. vm_compute. reflexivity. Qed.

(** Three targets, the second down: two reported as scraped, one as
    failed. *)
Example partial_failure_counts :
  successCount (snd (run_main Fixtures.parser Fixtures.second_down)) = 2%nat /\
  failureCount (snd (run_main Fixtures.parser Fixtures.second_down)) = 1%nat.
Proof. split; vm_compute; reflexivity. Qed.

(** * The claims *)

(** ** Extraction *)

(** C5. Within one document no two discussion records have the same
    URL: the URLs of the records of a document are pairwise distinct,
    every link that satisfies the rule has its URL among them (only an
    exact, case-sensitive repetition is dropped), and so it is for every
    entry of every run.  The set of seen URLs is made anew for each
    document: in one run the entries of two targets can both hold a
    record with the same URL. *)
Theorem discussion_urls_distinct_per_document :
  (forall soup, NoDup (d_url <$> extract_discussions soup)) /\
  (forall soup link,
      link ∈ find_all_a_href soup ->
      discussion_rule (get_text (fst link)) (snd link) ->
      snd link ∈ d_url <$> extract_discussions soup) /\
  (d_url <$> extract_discussions Fixtures.case_page
   = ["/r/Python/comments/A"; "/r/Python/comments/a"]) /\
  (forall parser w data d,
      fst (run parser w) = inr data -> d ∈ data -> NoDup (d_url <$> discussions d)) /\
  (exists parser w data d1 d2 u,
      fst (run parser w) = inr data /\
      data !! 0%nat = Some d1 /\ data !! 1%nat = Some d2 /\
      sd_url d1 <> sd_url d2 /\
      u ∈ d_url <$> discussions d1 /\ u ∈ d_url <$> discussions d2).
Proof.
  assert (forall soup, NoDup (d_url <$> extract_discussions soup)) as Hnd.
  { intros soup. apply (links_inv_fold (find_all_a_href soup) (∅, [])), links_inv_init. }
  split; [exact Hnd|]. split; [|split; [|split]].
  - intros soup link Hin Hr. unfold extract_discussions, extract_links.
    apply (links_inv_fold (find_all_a_href soup) (∅, []) links_inv_init).
    now apply seen_fold_complete.
  - vm_compute. reflexivity.
  - intros parser w data d Hrun Hd. apply run_data_inv in Hrun as ->.
    apply entries_elem in Hd as [i [url [_ Ha]]].
    apply attempt_entry in Ha as [_ [r [soup [_ [_ [_ [_ ->]]]]]]]. apply Hnd.
  - exists Fixtures.parser, Fixtures.all_ok. do 3 eexists.
    exists "/r/Python/comments/1/first".
    split; [vm_compute; reflexivity|].
    split; [vm_compute; reflexivity|].
    split; [vm_compute; reflexivity|].
    split; [simpl; discriminate|].
    split; vm_compute; apply list_elem_of_singleton; reflexivity.
Qed.

Lemma discussion_urls_distinct_per_document_witness :
  let link := (Fixtures.anchor "First post" "/r/Python/comments/1/first",
               "/r/Python/comments/1/first") in
  link ∈ find_all_a_href Fixtures.page /\
  discussion_rule (get_text (fst link)) (snd link) /\
  snd link ∈ d_url <$> extract_discussions Fixtures.page.
Proof.
  intros link.
  assert (link ∈ find_all_a_href Fixtures.page) as Hin by (vm_compute; constructor).
  assert (discussion_rule (get_text (fst link)) (snd link)) as Hr
    by (apply discussion_rule_spec; vm_compute; reflexivity).
  split; [exact Hin|]. split; [exact Hr|].
  destruct discussion_urls_distinct_per_document as [_ [H _]].
  exact (H Fixtures.page link Hin Hr).
Defined.

(** C6. Every discussion record is made from a link of the document;
    when the text of that link is longer than 100 characters the stored
    title is the first 100 characters of the text followed by the
    three-character marker, 103 characters in all; when the text has 100
    characters or fewer the stored title is the text itself. *)
Theorem discussion_title_truncation (soup : Soup) (d : discussion) :
  d ∈ extract_discussions soup ->
  exists link,
    link ∈ find_all_a_href soup /\ d_url d = snd link /\
    let text := get_text (fst link) in
    (100 < PyStr.len text ->
       PyStr.len (d_title d) = 103 /\
       exists first rest,
         text = first +:+ rest /\ PyStr.len first = 100 /\
         d_title d = first +:+ "...") /\
    (PyStr.len text <= 100 -> d_title d = text).
Proof.
  intros Hd. unfold extract_discussions, extract_links in Hd.
  apply discussion_origin in Hd as [Hd | [link [Hin [-> _]]]]; [inversion Hd|].
  exists link. split; [exact Hin|]. split; [reflexivity|].
  cbn zeta. cbn [discussion_of d_title]. unfold discussion_title. split.
  - intros Hlen. rewrite (proj2 (Z.ltb_lt _ _) Hlen).
    assert (String.length (PyStr.slice_to 100 (get_text (fst link))) = 100%nat) as Hs.
    { apply slice_to_length. unfold PyStr.len in Hlen. lia. }
    split.
    + unfold PyStr.len. rewrite append_length, Hs. reflexivity.
    + destruct (slice_to_prefix 100 (get_text (fst link))) as [rest Hrest].
      exists (PyStr.slice_to 100 (get_text (fst link))), rest.
      split; [exact Hrest|]. split; [|reflexivity].
      unfold PyStr.len. now rewrite Hs.
  - intros Hlen. now rewrite (proj2 (Z.ltb_ge _ _) Hlen).
Qed.

Lemma discussion_title_truncation_witness :
  let d := {| d_title := PyStr.slice_to 100 Fixtures.long_text +:+ "...";
              d_url := "/r/Python/comments/3/long";
              d_type := "discussion" |} in
  d ∈ extract_discussions Fixtures.long_page /\
  exists link,
    link ∈ find_all_a_href Fixtures.long_page /\ d_url d = snd link /\
    let text := get_text (fst link) in
    (100 < PyStr.len text ->
       PyStr.len (d_title d) = 103 /\
       exists first rest,
         text = first +:+ rest /\ PyStr.len first = 100 /\
         d_title d = first +:+ "...") /\
    (PyStr.len text <= 100 -> d_title d = text).
Proof.
  intros d.
  assert (d ∈ extract_discussions Fixtures.long_page) as Hd by (vm_compute; constructor).
  split; [exact Hd|].
  exact (discussion_title_truncation Fixtures.long_page d Hd).
Defined.

(** C7. A heading yields a topic record exactly when its text is longer
    than 3 characters and its lower-cased text contains one of the five
    keywords: the topics of a document are the records of the headings
    that satisfy the rule, one for each, in the order of the document.
    The heading "Learning Python Basics" is a topic; the heading "Hi" is
    not, and no text of at most 3 characters is. *)
Theorem topics_follow_keyword_rule :
  (forall soup,
      extract_topics soup =
      topic_of <$> filter (fun h => topic_rule (get_text h)) (find_all_headings soup)) /\
  (forall topics heading,
      heading_step topics heading =
      if decide (topic_rule (get_text heading)) then topics ++ [topic_of heading]
      else topics) /\
  keywords = ["python"; "programming"; "code"; "developer"; "coding"] /\
  topic_rule "Learning Python Basics" /\
  ~ topic_rule "Hi" /\
  (forall text, PyStr.len text <= 3 -> ~ topic_rule text) /\
  extract_topics
    {| soup_title := None;
       descendants := [Fixtures.heading "Learning Python Basics"; Fixtures.heading "Hi"] |}
  = [ {| t_title := "Learning Python Basics"; t_type := "python_topic" |} ].
Proof.
  split; [|split; [|split; [|split; [|split; [|split]]]]].
  - intros soup. unfold extract_topics. now rewrite fold_heading_step.
  - apply heading_step_spec.
  - reflexivity.
  - apply topic_rule_spec. vm_compute. reflexivity.
  - intros H. apply topic_rule_spec in H. vm_compute in H. discriminate.
  - intros text Hlen [H _]. lia.
  - vm_compute. reflexivity.
Qed.

Lemma topics_follow_keyword_rule_witness :
  PyStr.len "Hi" <= 3 /\ ~ topic_rule "Hi".
Proof.
  assert (PyStr.len "Hi" <= 3) as Hlen by (vm_compute; discriminate).
  split; [exact Hlen|].
  destruct topics_follow_keyword_rule as [_ [_ [_ [_ [_ [H _]]]]]].
  exact (H "Hi" Hlen).
Defined.

(** C10. A discussion record is made only from a link whose text is not
    empty and longer than one character (and whose target contains the
    marker); a link whose text is empty or one character long leaves the
    set of seen URLs and the records as they were, also when its target
    contains [/comments/]. *)
Theorem short_link_text_is_dropped :
  (forall soup d,
      d ∈ extract_discussions soup ->
      exists link,
        link ∈ find_all_a_href soup /\ d = discussion_of link /\
        get_text (fst link) <> EmptyString /\ 1 < PyStr.len (get_text (fst link)) /\
        substring "/comments/" (snd link)) /\
  (forall st link url,
      PyStr.len (get_text link) <= 1 -> link_step st (link, url) = st) /\
  (forall links1 links2 link url,
      PyStr.len (get_text link) <= 1 ->
      extract_links (links1 ++ (link, url) :: links2) = extract_links (links1 ++ links2)).
Proof.
  split; [|split].
  - intros soup d Hd. unfold extract_discussions, extract_links in Hd.
    apply discussion_origin in Hd as [Hd | [link [Hin [-> [H1 [H2 H3]]]]]]; [inversion Hd|].
    exists link. now repeat split.
  - intros st link url Hlen. now apply link_step_short.
  - intros links1 links2 link url Hlen. unfold extract_links.
    rewrite !fold_left_app. cbn [fold_left]. now rewrite link_step_short.
Qed.

Lemma short_link_text_is_dropped_witness :
  PyStr.len (get_text Fixtures.short_link) <= 1 /\
  substring "/comments/" "/r/Python/comments/2/second" /\
  link_step (∅, []) (Fixtures.short_link, "/r/Python/comments/2/second") = (∅, []).
Proof.
  assert (PyStr.len (get_text Fixtures.short_link) <= 1) as Hlen
    by (vm_compute; discriminate).
  split; [exact Hlen|]. split; [apply contains_spec; vm_compute; reflexivity|].
  destruct short_link_text_is_dropped as [_ [H _]].
  exact (H (∅, []) Fixtures.short_link "/r/Python/comments/2/second" Hlen).
Defined.

(** ** The batch *)

(** C1, as the specification states it, fails: with the second target
    down the function returns two entries for its three targets. *)
Lemma failed_target_has_no_entry :
  ~ exists data,
      fst (run Fixtures.parser Fixtures.second_down) = inr data /\
      length data = length subreddits.
Proof.
  intros [data [Hrun Hlen]]. apply run_data_inv in Hrun. subst data.
  vm_compute in Hlen. discriminate.
Qed.

(** C1, amended. The function returns, and the list it returns holds
    exactly one entry for each target whose [try] block came to its end
    (fetch and parse succeeded) and none for a target whose fetch or
    parse raised: never two entries for one target, never more entries
    than targets. *)
Theorem one_entry_per_scraped_target
    (parser : bytes -> exception + Soup) (w : World) :
  exists data,
    fst (run parser w) = inr data /\
    (length data <= length subreddits)%nat /\
    forall i url,
      subreddits !! i = Some url ->
      length (filter (fun d => sd_url d = url) data) =
      match attempt parser w i url with
      | inr _ => 1%nat
      | inl _ => 0%nat
      end.
Proof.
  exists (omap entry_of (attempts parser w 0 subreddits)).
  split; [apply run_data|]. split.
  - destruct (count_attempts parser w 0 subreddits) as [H _]. cbn zeta in H. lia.
  - intros i url Hi.
    apply (entries_of_target parser w 0 subreddits i url subreddits_NoDup Hi).
Qed.

Lemma one_entry_per_scraped_target_witness :
  let url := "https://www.reddit.com/r/programming" in
  subreddits !! 1%nat = Some url /\
  exists data,
    fst (run Fixtures.parser Fixtures.second_down) = inr data /\
    length (filter (fun d => sd_url d = url) data) =
    match attempt Fixtures.parser Fixtures.second_down 1 url with
    | inr _ => 1%nat
    | inl _ => 0%nat
    end.
Proof.
  intros url.
  assert (subreddits !! 1%nat = Some url) as Hi by reflexivity.
  split; [exact Hi|].
  destruct (one_entry_per_scraped_target Fixtures.parser Fixtures.second_down)
    as [data [Hrun [_ H]]].
  exists data. split; [exact Hrun | exact (H 1%nat url Hi)].
Defined.

(** C2, as the specification states it, fails: with the second target
    down, the list the function returns holds nothing for that target,
    neither a failure outcome nor anything else. *)
Lemma fetch_failure_is_not_returned :
  ~ exists data d,
      fst (run Fixtures.parser Fixtures.second_down) = inr data /\
      d ∈ data /\ sd_url d = "https://www.reddit.com/r/programming".
Proof.
  intros [data [d [Hrun [Hd Hurl]]]]. apply run_data_inv in Hrun. subst data.
  vm_compute in Hd.
  apply elem_of_cons in Hd as [-> | Hd]; [discriminate|].
  apply list_elem_of_singleton in Hd as ->. discriminate.
Qed.

(** C2, amended. A fetch that ends in an exception of [requests] (a
    connection error, a timeout, an HTTP error status) never leaves the
    function as an exception: the function returns; the loop prints the
    line [Error fetching r/<name>: <reason>], puts no entry for that
    target in the list it returns, and goes on: every target is
    requested, once, in the order of the list. *)
Theorem fetch_failure_is_printed_and_skipped
    (parser : bytes -> exception + Soup) (w : World) :
  exists data,
    fst (run parser w) = inr data /\
    requests_of (snd (run parser w)) = subreddits /\
    forall i url e,
      subreddits !! i = Some url ->
      fetch_fails w i url e ->
      Print ("Error fetching r/" +:+ PyStr.last_item (PyStr.split "/" url) +:+ ": "
             +:+ str_of_exception e) ∈ snd (run parser w) /\
      ~ exists d, d ∈ data /\ sd_url d = url.
Proof.
  exists (omap entry_of (attempts parser w 0 subreddits)).
  split; [apply run_data|]. split.
  - rewrite run_trace. apply (count_attempts parser w 0 subreddits).
  - intros i url e Hi Hfail.
    apply (fetch_fails_attempt parser) in Hfail as [Ha He]. split.
    + rewrite run_trace. apply (events_of_target parser w 0 subreddits i url _ Hi).
      cbn [Nat.add]. rewrite Ha. unfold events_of. rewrite He.
      apply elem_of_app. right. apply list_elem_of_singleton. reflexivity.
    + intros [d [Hd Hurl]]. apply entries_elem in Hd as [j [url' [Hj Hd]]].
      cbn [Nat.add] in Hd. pose proof (attempt_entry parser w _ _ _ Hd) as [Hu _].
      rewrite Hurl in Hu. subst url'.
      assert (i = j) as -> by exact (NoDup_lookup _ _ _ _ subreddits_NoDup Hi Hj).
      congruence.
Qed.

Lemma fetch_failure_is_printed_and_skipped_witness :
  let url := "https://www.reddit.com/r/programming" in
  let e := ConnectionError "Connection refused" in
  subreddits !! 1%nat = Some url /\
  fetch_fails Fixtures.second_down 1 url e /\
  exists data,
    fst (run Fixtures.parser Fixtures.second_down) = inr data /\
    Print "Error fetching r/programming: Connection refused"
      ∈ snd (run Fixtures.parser Fixtures.second_down) /\
    ~ exists d, d ∈ data /\ sd_url d = url.
Proof.
  intros url e.
  assert (subreddits !! 1%nat = Some url) as Hi by reflexivity.
  assert (fetch_fails Fixtures.second_down 1 url e) as Hf by (left; split; reflexivity).
  split; [exact Hi|]. split; [exact Hf|].
  destruct (fetch_failure_is_printed_and_skipped Fixtures.parser Fixtures.second_down)
    as [data [Hrun [_ H]]].
  exists data. split; [exact Hrun|]. exact (H 1%nat url e Hi Hf).
Defined.

(** C3. The reports of a run reconcile. [main] prints one line
    [r/<name>: ...] for each entry of the list the scraper returned
    (their number is the [len(data)] of its total line); the scraper
    prints one line [Error fetching r/...] or [Error parsing r/...] for
    each target whose [try] block raised.  The number of the first plus
    the number of the second is the number of the targets. *)
Theorem summary_reconciles (parser : bytes -> exception + Soup) (w : World) :
  fst (run_main parser w) = inr tt /\
  (successCount (snd (run_main parser w)) + failureCount (snd (run_main parser w))
   = length subreddits)%nat /\
  exists data,
    fst (run parser w) = inr data /\
    successCount (snd (run_main parser w)) = length data /\
    failureCount (snd (run_main parser w)) = failureCount (snd (run parser w)) /\
    (length data + failureCount (snd (run parser w)) = length subreddits)%nat.
Proof.
  destruct (count_attempts parser w 0 subreddits) as [Hsum [Hsucc _]]. cbn zeta in *.
  rewrite <- run_trace in Hsum, Hsucc.
  assert (successCount (snd (run_main parser w))
          = length (omap entry_of (attempts parser w 0 subreddits))) as Hs.
  { rewrite run_main_spec. cbn [snd]. unfold successCount.
    rewrite !success_lines_app, Hsucc, success_lines_report.
    cbn [app]. change (success_lines _) with (@nil string). cbn [app].
    apply length_fmap. }
  assert (failureCount (snd (run_main parser w)) = failureCount (snd (run parser w)))
    as Hf.
  { rewrite run_main_spec. cbn [snd]. unfold failureCount.
    rewrite !failure_lines_app, failure_lines_report, app_nil_r.
    change (failure_lines [_; _]) with (@nil string). reflexivity. }
  split; [now rewrite run_main_spec|]. split; [rewrite Hs, Hf; exact Hsum|].
  exists (omap entry_of (attempts parser w 0 subreddits)).
  split; [apply run_data|]. now repeat split.
Qed.

(** C4. The entries of the list the function returns follow the order in
    which the targets are listed: their URLs are a sub-sequence of
    [subreddits], the targets are requested in that order, and the lines
    of the report of [main] follow the order of the entries. *)
Theorem report_in_enumeration_order (parser : bytes -> exception + Soup) (w : World) :
  exists data,
    fst (run parser w) = inr data /\
    sublist (sd_url <$> data) subreddits /\
    requests_of (snd (run parser w)) = subreddits /\
    success_lines (snd (run_main parser w)) = subreddit_line <$> data.
Proof.
  exists (omap entry_of (attempts parser w 0 subreddits)).
  destruct (count_attempts parser w 0 subreddits) as [_ [Hsucc Hreq]]. cbn zeta in *.
  rewrite <- run_trace in Hsucc, Hreq.
  split; [apply run_data|]. split; [apply entries_sublist|]. split; [exact Hreq|].
  rewrite run_main_spec. cbn [snd].
  rewrite !success_lines_app, Hsucc, success_lines_report. reflexivity.
Qed.

(** C8. The records of an entry are a function of the raw content of the
    response alone: whenever two targets, of one run or of two runs in
    different worlds (other answers of the network, another clock,
    another place in the list, another subreddit), were answered with
    the same bytes, their entries hold the same topic records and the
    same discussion records. *)
Theorem extraction_deterministic
    (parser : bytes -> exception + Soup) (w1 w2 : World)
    (data1 data2 : list subreddit_data) (i1 i2 : nat)
    (d1 d2 : subreddit_data) (r1 r2 : Response) :
  fst (run parser w1) = inr data1 ->
  fst (run parser w2) = inr data2 ->
  d1 ∈ data1 -> d2 ∈ data2 ->
  subreddits !! i1 = Some (sd_url d1) ->
  subreddits !! i2 = Some (sd_url d2) ->
  requests_get w1 i1 (sd_url d1) = inr r1 ->
  requests_get w2 i2 (sd_url d2) = inr r2 ->
  content r1 = content r2 ->
  python_topics d1 = python_topics d2 /\ discussions d1 = discussions d2.
Proof.
  intros Hrun1 Hrun2 Hd1 Hd2 Hi1 Hi2 Hr1 Hr2 Hc.
  apply run_data_inv in Hrun1, Hrun2. subst data1 data2.
  apply entries_elem in Hd1 as [j1 [u1 [Hj1 Ha1]]].
  apply entries_elem in Hd2 as [j2 [u2 [Hj2 Ha2]]].
  cbn [Nat.add] in Ha1, Ha2.
  apply attempt_entry in Ha1 as [Hu1 [r1' [soup1 [Hg1 [_ [Hp1 [-> ->]]]]]]].
  apply attempt_entry in Ha2 as [Hu2 [r2' [soup2 [Hg2 [_ [Hp2 [-> ->]]]]]]].
  subst u1 u2.
  assert (j1 = i1) as -> by exact (NoDup_lookup _ _ _ _ subreddits_NoDup Hj1 Hi1).
  assert (j2 = i2) as -> by exact (NoDup_lookup _ _ _ _ subreddits_NoDup Hj2 Hi2).
  assert (soup1 = soup2) as -> by congruence.
  now split.
Qed.

Lemma extraction_deterministic_witness :
  exists data1 data2 d1 d2 r1 r2,
    fst (run Fixtures.parser Fixtures.all_ok) = inr data1 /\
    fst (run Fixtures.parser Fixtures.second_down) = inr data2 /\
    data1 !! 0%nat = Some d1 /\ data2 !! 1%nat = Some d2 /\
    requests_get Fixtures.all_ok 0 (sd_url d1) = inr r1 /\
    requests_get Fixtures.second_down 2 (sd_url d2) = inr r2 /\
    content r1 = content r2 /\
    python_topics d1 = python_topics d2 /\ discussions d1 = discussions d2.
Proof.
  do 6 eexists.
  split; [vm_compute; reflexivity|].
  split; [vm_compute; reflexivity|].
  split; [vm_compute; reflexivity|].
  split; [vm_compute; reflexivity|].
  split; [vm_compute; reflexivity|].
  split; [vm_compute; reflexivity|].
  split; [reflexivity|].
  eapply (extraction_deterministic Fixtures.parser Fixtures.all_ok Fixtures.second_down
            _ _ 0 2).
  - vm_compute; reflexivity.
  - vm_compute; reflexivity.
  - vm_compute. apply list_elem_of_here.
  - vm_compute. apply list_elem_of_further, list_elem_of_here.
  - reflexivity.
  - reflexivity.
  - vm_compute; reflexivity.
  - vm_compute; reflexivity.
  - reflexivity.
Defined.

(** The pause of two seconds is the last statement of the [try] block:
    the run is polite exactly when neither of the first two targets
    left its [try] block by an exception. *)
Lemma polite_iff (parser : bytes -> exception + Soup) (w : World) :
  polite (snd (run parser w)) = true <->
  (exists d, attempt parser w 0 "https://www.reddit.com/r/Python" = inr d) /\
  (exists d, attempt parser w 1 "https://www.reddit.com/r/programming" = inr d).
Proof.
  rewrite run_trace. unfold subreddits.
  cbn [attempts fmap list_fmap concat fst snd].
  destruct (attempt parser w 0 _) as [e0 | d0];
    destruct (attempt parser w 1 _) as [e1 | d1];
    destruct (attempt parser w 2 _) as [e2 | d2];
    (split; [intros H; try discriminate H; split; eexists; reflexivity
            | intros [[x0 H0] [x1 H1]]; try discriminate H0; try discriminate H1;
              reflexivity]).
Qed.

(** C9: the code at the failing input.  With the second target down the
    third request follows the failed one with no pause between them. *)
Theorem no_pause_after_failed_fetch :
  snd (run Fixtures.parser Fixtures.second_down) =
  [ Print "Scraping r/Python...";
    Get "https://www.reddit.com/r/Python" user_agent 10;
    Sleep 2;
    Print "Scraping r/programming...";
    Get "https://www.reddit.com/r/programming" user_agent 10;
    Print "Error fetching r/programming: Connection refused";
    Print "Scraping r/learnpython...";
    Get "https://www.reddit.com/r/learnpython" user_agent 10;
    Sleep 2 ] /\
  polite (snd (run Fixtures.parser Fixtures.second_down)) = false.
Proof. split; vm_compute; reflexivity. Qed.


(** * [save_python_data] and the rest of [main] *)

Section SaveFacts.

Import Persistence.

Variable disk : Disk.

Lemma for_each_app {X} (l1 l2 : list X) (body : X -> F unit) (s : fstate) :
  Persistence.for_each (l1 ++ l2) body s
  = (Persistence.for_each l1 body ;; Persistence.for_each l2 body) s.
Proof.
  revert s. induction l1 as [|x l1 IH]; intros s; [reflexivity|].
  cbn [app Persistence.for_each]. unfold mbind, F_bind in *.
  destruct (body x s) as [[e | []] s']; [reflexivity | apply IH].
Qed.

Lemma for_each_fmap {X Y} (g : X -> Y) (l : list X) (body : Y -> F unit) (s : fstate) :
  Persistence.for_each l (fun x => body (g x)) s = Persistence.for_each (g <$> l) body s.
Proof.
  revert s. induction l as [|x l IH]; intros s; [reflexivity|].
  cbn [fmap list_fmap Persistence.for_each]. unfold mbind, F_bind.
  destruct (body (g x) s) as [[e | []] s']; [reflexivity | apply IH].
Qed.

Lemma for_each_concat {X Y} (h : X -> list Y) (l : list X) (body : Y -> F unit)
    (inner : X -> F unit) (s : fstate) :
  (forall x s', inner x s' = Persistence.for_each (h x) body s') ->
  Persistence.for_each l inner s = Persistence.for_each (concat (h <$> l)) body s.
Proof.
  intros Hinner. revert s. induction l as [|x l IH]; intros s; [reflexivity|].
  cbn [fmap list_fmap concat Persistence.for_each].
  rewrite for_each_app. unfold mbind, F_bind. rewrite Hinner.
  destruct (Persistence.for_each (h x) body s) as [[e | []] s']; [reflexivity | apply IH].
Qed.

(** The nested loops write the rows of [csv_rows], one after the other. *)
Lemma write_csv_flat (filename : string) (data : list subreddit_data) (s : fstate) :
  write_csv disk filename data s
  = Persistence.for_each (csv_rows data) (writerow disk filename) s.
Proof.
  unfold write_csv, csv_rows. cbn [Persistence.for_each]. unfold mbind, F_bind.
  destruct (writerow disk filename header s) as [[e | []] s']; [reflexivity|].
  apply for_each_concat. intros sd s0. unfold subreddit_rows.
  rewrite for_each_app. unfold mbind, F_bind.
  rewrite (for_each_fmap (topic_row sd) (python_topics sd) (writerow disk filename)).
  destruct (Persistence.for_each (topic_row sd <$> python_topics sd) _ s0)
    as [[e | []] s1]; [reflexivity|].
  apply (for_each_fmap (discussion_row sd) (discussions sd) (writerow disk filename)).
Qed.

(** Writing rows one after the other stops at the first call that
    raises. *)
Lemma for_each_writerow (filename : string) (rows : list (list string)) (s : fstate) :
  Persistence.for_each rows (writerow disk filename) s =
  (match snd (written disk filename (n_rows s) rows) with
   | None => inr tt
   | Some e => inl e
   end,
   {| log := log s ++ (Row filename <$> fst (written disk filename (n_rows s) rows));
      n_rows := (n_rows s + length (fst (written disk filename (n_rows s) rows)))%nat |}).
Proof.
  revert s. induction rows as [|r rows IH]; intros [l k].
  - cbn. now rewrite app_nil_r, Nat.add_0_r.
  - cbn [Persistence.for_each written]. unfold mbind, F_bind, writerow at 1.
    cbn [n_rows log].
    destruct (writerow_raises disk filename k) as [e|].
    + cbn. now rewrite app_nil_r, Nat.add_0_r.
    + rewrite IH. cbn [n_rows log].
      destruct (written disk filename (S k) rows) as [ws o]. cbn [fst snd length].
      cbn [fmap list_fmap]. rewrite <- app_assoc. cbn [app].
      now rewrite Nat.add_succ_r.
Qed.

Lemma json_part_run (filename : string) (data : list subreddit_data) (s : fstate) :
  Persistence.try_except
    (with_open disk filename (json_dump disk filename data);;
     Persistence.print ("Python topics data saved to " +:+ filename))
    (fun e => Persistence.print ("Error saving JSON: " +:+ str_of_exception e)) s
  = (inr tt, {| log := log s ++ json_log disk filename data; n_rows := n_rows s |}).
Proof.
  unfold Persistence.try_except, with_open, json_dump, json_log, Persistence.print,
    record, mbind, F_bind.
  destruct s as [l k]. cbn [log n_rows].
  destruct (open_raises disk filename) as [e|]; [reflexivity|].
  destruct (dump_raises disk filename) as [e|];
    destruct (close_raises disk filename) as [e'|]; cbn [log n_rows];
    rewrite <- ?app_assoc; reflexivity.
Qed.

Lemma csv_part_run (filename : string) (data : list subreddit_data) (s : fstate) :
  n_rows s = 0%nat ->
  Persistence.try_except
    (with_open disk filename (write_csv disk filename data);;
     Persistence.print ("Python topics data saved to " +:+ filename))
    (fun e => Persistence.print ("Error saving CSV: " +:+ str_of_exception e)) s
  = (inr tt,
     {| log := log s ++ csv_log disk filename data;
        n_rows := match open_raises disk filename with
                  | Some _ => 0%nat
                  | None => length (fst (written disk filename 0 (csv_rows data)))
                  end |}).
Proof.
  destruct s as [l k]. cbn [n_rows]. intros ->.
  unfold Persistence.try_except, with_open, csv_log, Persistence.print,
    record, mbind, F_bind. cbn [log n_rows].
  destruct (open_raises disk filename) as [e|]; [reflexivity|].
  rewrite write_csv_flat, for_each_writerow. cbn [log n_rows Nat.add].
  destruct (written disk filename 0 (csv_rows data)) as [ws o]. cbn [fst snd].
  destruct o as [e|]; destruct (close_raises disk filename) as [e'|]; cbn [log n_rows];
    rewrite <- ?app_assoc; reflexivity.
Qed.

(** The whole call: it returns, and its log is read off the disk. *)
Lemma save_spec (data : list subreddit_data) (fj fc : string) :
  save disk data fj fc =
  (inr tt,
   match data with
   | [] => [Printed "No data to save"]
   | _ :: _ => json_log disk fj data ++ csv_log disk fc data
   end).
Proof.
  unfold save, save_python_data. destruct data as [|d data]; [reflexivity|].
  unfold mbind at 1, F_bind at 1. rewrite json_part_run.
  rewrite csv_part_run by reflexivity. reflexivity.
Qed.

End SaveFacts.

(** ** What gets written *)

Section WrittenFacts.

Import Persistence.

Variable disk : Disk.









Lemma open_after_app (open : list string) (l1 l2 : list file_event) :
  open_after open (l1 ++ l2) = open_after (open_after open l1) l2.
Proof.
  revert open. induction l1 as [|e l1 IH]; intros open; [reflexivity|].
  destruct e; cbn [app open_after]; apply IH.
Qed.

Lemma open_after_rows (open : list string) (filename : string)
    (rows : list (list string)) :
  open_after open (Row filename <$> rows) = open.
Proof. induction rows as [|r rows IH]; [reflexivity | exact IH]. Qed.

Lemma remove_only (f : string) : List.remove String.eq_dec f [f] = [].
Proof. cbn. destruct (String.eq_dec f f); [reflexivity | congruence]. Qed.

Lemma open_after_json_log (fj : string) (data : list subreddit_data) :
  open_after [] (json_log disk fj data) = [].
Proof.
  unfold json_log. destruct (open_raises disk fj); [reflexivity|].
  destruct (dump_raises disk fj); cbn [app open_after]; apply remove_only.
Qed.

Lemma open_after_csv_log (fc : string) (data : list subreddit_data) :
  open_after [] (csv_log disk fc data) = [].
Proof.
  unfold csv_log. destruct (open_raises disk fc); [reflexivity|].
  cbn [open_after]. rewrite open_after_app, open_after_rows.
  cbn [open_after]. apply remove_only.
Qed.

End WrittenFacts.

(** X1. [save_python_data] never raises, whatever the disk does; it
    prints [No data to save] and nothing else, opening no file, exactly
    when it is given no data. *)
Theorem save_never_raises (disk : Persistence.Disk) (data : list subreddit_data)
    (fj fc : string) :
  fst (Persistence.save disk data fj fc) = inr tt /\
  (snd (Persistence.save disk data fj fc) = [Persistence.Printed "No data to save"]
   <-> data = []).
Proof.
  rewrite save_spec. split; [reflexivity|]. cbn [snd].
  destruct data as [|d data]; [split; reflexivity|].
  split; [|discriminate]. intros H. apply (f_equal length) in H.
  rewrite length_app in H. cbn [length] in H.
  assert (1 <= length (Persistence.json_log disk fj (d :: data)))%nat.
  { unfold Persistence.json_log. destruct (Persistence.open_raises disk fj);
      cbn [length]; lia. }
  assert (1 <= length (Persistence.csv_log disk fc (d :: data)))%nat.
  { unfold Persistence.csv_log. destruct (Persistence.open_raises disk fc);
      cbn [length]; lia. }
  lia.
Qed.

Lemma save_never_raises_witness :
  snd (Persistence.save Persistence.json_denied [] "a.json" "a.csv")
  = [Persistence.Printed "No data to save"].
Proof.
  exact (proj2 (proj2 (save_never_raises Persistence.json_denied [] "a.json" "a.csv"))
           eq_refl).
Defined.

(** X2. Every file the function opens is closed when it returns, also
    when the dumping, a [writerow] or the closing itself raises. *)
Theorem save_closes_its_files (disk : Persistence.Disk) (data : list subreddit_data)
    (fj fc : string) :
  Persistence.open_after [] (snd (Persistence.save disk data fj fc)) = [].
Proof.
  rewrite save_spec. cbn [snd]. destruct data as [|d data]; [reflexivity|].
  now rewrite open_after_app, open_after_json_log, open_after_csv_log.
Qed.







(** ** The rows and the entries *)

Section RowFacts.

Import Persistence.

Lemma elem_of_concat {A} (x : A) (ls : list (list A)) :
  x ∈ concat ls <-> exists l, x ∈ l /\ l ∈ ls.
Proof.
  induction ls as [|l ls IH]; cbn [concat].
  - split; [intros H; inversion H | intros [l [_ H]]; inversion H].
  - rewrite elem_of_app, IH. split.
    + intros [H | [l' [H1 H2]]].
      * exists l. split; [exact H | apply list_elem_of_here].
      * exists l'. split; [exact H1 | now apply list_elem_of_further].
    + intros [l' [H1 H2]]. apply elem_of_cons in H2 as [-> | H2].
      * now left.
      * right. now exists l'.
Qed.

Lemma totals_rows (data : list subreddit_data) (a b : nat) :
  (length (concat (subreddit_rows <$> data)) + (a + b)
   = fst (totals_after data (a, b)) + snd (totals_after data (a, b)))%nat.
Proof.
  revert a b. induction data as [|sd data IH]; intros a b.
  - cbn. lia.
  - cbn [fmap list_fmap concat totals_after fold_left fst snd].
    change (fold_left _ data ?t) with (totals_after data t).
    rewrite <- IH. unfold subreddit_rows at 1.
    rewrite !length_app, !length_fmap. lia.
Qed.

Lemma row_of_entry (data : list subreddit_data) (row : list string) :
  row ∈ concat (subreddit_rows <$> data) <->
  exists sd, sd ∈ data /\
    ((exists t, t ∈ python_topics sd /\ row = topic_row sd t) \/
     (exists d, d ∈ discussions sd /\ row = discussion_row sd d)).
Proof.
  rewrite elem_of_concat. split.
  - intros [rows [Hrow Hrows]]. apply list_elem_of_fmap in Hrows as [sd [-> Hsd]].
    exists sd. split; [exact Hsd|]. unfold subreddit_rows in Hrow.
    apply elem_of_app in Hrow as [H | H]; apply list_elem_of_fmap in H as [x [-> Hx]];
      [left | right]; now exists x.
  - intros [sd [Hsd H]]. exists (subreddit_rows sd).
    split; [|now apply list_elem_of_fmap_2]. unfold subreddit_rows. apply elem_of_app.
    destruct H as [[t [Ht ->]] | [d [Hd ->]]];
      [left | right]; now apply list_elem_of_fmap_2.
Qed.

End RowFacts.

(** X6. Every row of the CSV file has five fields, and the file has one
    row more than the two totals that the summary loop of [main] ends
    with: the header, one row for each topic and one for each
    discussion. *)
Theorem csv_rows_match_totals (data : list subreddit_data) (s : state) :
  Forall (fun row => length row = 5%nat) (Persistence.csv_rows data) /\
  exists totals,
    fst (summary_loop data (0, 0)%nat s) = inr totals /\
    length (Persistence.csv_rows data) = S (fst totals + snd totals).
Proof.
  split.
  - unfold Persistence.csv_rows. apply Forall_cons. split; [reflexivity|].
    apply Forall_forall. intros row Hrow.
    apply row_of_entry in Hrow as [sd [_ [[t [_ ->]] | [d [_ ->]]]]]; reflexivity.
  - exists (totals_after data (0, 0)%nat). rewrite summary_loop_run.
    split; [reflexivity|]. unfold Persistence.csv_rows. cbn [length].
    rewrite <- totals_rows. lia.
Qed.

(** X7. A subreddit appears in the rows of the CSV file exactly when its
    entry holds a topic or a discussion: an entry with neither, which is
    in the list that is dumped as JSON and is counted by [main],
    leaves no row. *)
Theorem csv_rows_of_subreddits (data : list subreddit_data) (name : string) :
  (exists row, row ∈ concat (Persistence.subreddit_rows <$> data) /\
               row !! 0%nat = Some name)
  <->
  (exists sd, sd ∈ data /\ subreddit sd = name /\
              (python_topics sd <> [] \/ discussions sd <> [])).
Proof.
  split.
  - intros [row [Hrow Hname]].
    apply row_of_entry in Hrow as [sd [Hsd [[t [Ht ->]] | [d [Hd ->]]]]];
      injection Hname as <-; exists sd; (split; [exact Hsd|]); (split; [reflexivity|]).
    + left. intros E. rewrite E in Ht. inversion Ht.
    + right. intros E. rewrite E in Hd. inversion Hd.
  - intros [sd [Hsd [<- H]]]. destruct H as [H | H].
    + destruct (python_topics sd) as [|t ts] eqn:E; [congruence|].
      exists (Persistence.topic_row sd t). split; [|reflexivity].
      apply row_of_entry. exists sd. split; [exact Hsd|]. left. exists t.
      split; [rewrite E; apply list_elem_of_here | reflexivity].
    + destruct (discussions sd) as [|d ds] eqn:E; [congruence|].
      exists (Persistence.discussion_row sd d). split; [|reflexivity].
      apply row_of_entry. exists sd. split; [exact Hsd|]. right. exists d.
      split; [rewrite E; apply list_elem_of_here | reflexivity].
Qed.

Lemma csv_rows_of_subreddits_witness :
  ~ exists row, row ∈ concat (Persistence.subreddit_rows <$> Persistence.sample_data) /\
                row !! 0%nat = Some "programming".
Proof.
  intros H.
  apply (proj1 (csv_rows_of_subreddits Persistence.sample_data "programming")) in H.
  destruct H as [sd [Hsd [Hname Hrec]]].
  apply elem_of_cons in Hsd as [-> | Hsd]; [discriminate Hname|].
  apply list_elem_of_singleton in Hsd as ->.
  destruct Hrec as [Hrec | Hrec]; now apply Hrec.
Defined.

(** ** The records of an entry *)

Section RecordFacts.

Lemma discussion_title_bounds (text : string) :
  1 < PyStr.len text ->
  2 <= PyStr.len (discussion_title text) <= 103.
Proof.
  intros Hlen. unfold discussion_title.
  destruct (100 <? PyStr.len text) eqn:E.
  - apply Z.ltb_lt in E. unfold PyStr.len in *.
    rewrite append_length, slice_to_length by lia. cbn. lia.
  - apply Z.ltb_ge in E. lia.
Qed.

Lemma topic_origin (soup : Soup) (t : topic) :
  t ∈ extract_topics soup ->
  exists h, h ∈ find_all_headings soup /\ t = topic_of h /\ topic_rule (get_text h).
Proof.
  unfold extract_topics. rewrite fold_heading_step. cbn [app]. intros H.
  apply list_elem_of_fmap in H as [h [-> H]]. apply list_elem_of_filter in H as [Hr Hin].
  now exists h.
Qed.

Lemma attempt_subreddit (parser : bytes -> exception + Soup) (w : World)
    (k : nat) (url : string) (d : subreddit_data) :
  attempt parser w k url = inr d ->
  subreddit d = PyStr.last_item (PyStr.split "/" url).
Proof.
  unfold attempt. destruct (requests_get w k url) as [e | r]; [discriminate|].
  destruct (raise_for_status r) as [e | []]; [discriminate|].
  destruct (parser (content r)) as [e | soup]; [discriminate|].
  intros H. now injection H as <-.
Qed.

End RecordFacts.

(** X8. What a run of the scraper puts in the CSV file: besides the
    header, every row is a topic row (type [python_topic], no URL, a
    title that satisfies the keyword rule) or a discussion row (type
    [discussion], a URL that contains [/comments/], a title of 2 to 103
    characters), under the name of one of the three subreddits. *)
Theorem rows_of_a_run (parser : bytes -> exception + Soup) (w : World)
    (data : list subreddit_data) (row : list string) :
  fst (run parser w) = inr data ->
  row ∈ Persistence.csv_rows data ->
  row = Persistence.header \/
  exists name type title url scraped,
    row = [name; type; title; url; scraped] /\
    name ∈ ["Python"; "programming"; "learnpython"] /\
    ((type = "python_topic" /\ url = EmptyString /\ topic_rule title) \/
     (type = "discussion" /\ substring "/comments/" url /\
      2 <= PyStr.len title <= 103)).
Proof.
  intros Hrun Hrow. apply run_data_inv in Hrun. subst data.
  unfold Persistence.csv_rows in Hrow. apply elem_of_cons in Hrow as [-> | Hrow];
    [now left | right].
  apply row_of_entry in Hrow as [sd [Hsd Hrow]].
  apply entries_elem in Hsd as [i [target [Hi Ha]]]. cbn [Nat.add] in Ha.
  pose proof (attempt_subreddit _ _ _ _ _ Ha) as Hname.
  apply attempt_entry in Ha as [_ [r [soup [_ [_ [_ [Ht Hd]]]]]]].
  assert (subreddit sd ∈ ["Python"; "programming"; "learnpython"]) as Hin.
  { rewrite Hname. unfold subreddits in Hi.
    destruct i as [|[|[|i]]]; try discriminate Hi; injection Hi as <-.
    - apply list_elem_of_here.
    - apply list_elem_of_further, list_elem_of_here.
    - apply list_elem_of_further, list_elem_of_further, list_elem_of_here. }
  destruct Hrow as [[t [Hin_t ->]] | [d [Hin_d ->]]].
  - rewrite Ht in Hin_t. apply topic_origin in Hin_t as [h [_ [-> Hr]]].
    exists (subreddit sd), "python_topic", (get_text h), EmptyString, (scraped_at sd).
    split; [reflexivity|]. split; [exact Hin|]. left.
    split; [reflexivity|]. split; [reflexivity | exact Hr].
  - rewrite Hd in Hin_d. unfold extract_discussions, extract_links in Hin_d.
    apply discussion_origin in Hin_d as [Hin_d | [link [_ [-> [_ [Hlen Hsub]]]]]];
      [inversion Hin_d|].
    exists (subreddit sd), "discussion", (discussion_title (get_text (fst link))),
      (snd link), (scraped_at sd).
    split; [reflexivity|]. split; [exact Hin|]. right.
    split; [reflexivity|]. split; [exact Hsub|]. now apply discussion_title_bounds.
Qed.

Lemma rows_of_a_run_witness :
  let row := ["Python"; "discussion"; "First post"; "/r/Python/comments/1/first";
              "2025-01-01 00:00:00"] in
  exists data,
    fst (run Fixtures.parser Fixtures.all_ok) = inr data /\
    row ∈ Persistence.csv_rows data /\
    (row = Persistence.header \/
     exists name type title url scraped,
       row = [name; type; title; url; scraped] /\
       name ∈ ["Python"; "programming"; "learnpython"] /\
       ((type = "python_topic" /\ url = EmptyString /\ topic_rule title) \/
        (type = "discussion" /\ substring "/comments/" url /\
         2 <= PyStr.len title <= 103))).
Proof.
  intros row.
  exists (omap entry_of (attempts Fixtures.parser Fixtures.all_ok 0 subreddits)).
  pose proof (run_data Fixtures.parser Fixtures.all_ok) as Hrun.
  assert (row ∈ Persistence.csv_rows
            (omap entry_of (attempts Fixtures.parser Fixtures.all_ok 0 subreddits)))
    as Hrow
    by (vm_compute; apply list_elem_of_further, list_elem_of_further, list_elem_of_here).
  split; [exact Hrun|]. split; [exact Hrow|].
  exact (rows_of_a_run Fixtures.parser Fixtures.all_ok _ row Hrun Hrow).
Defined.

(** ** The events of a run of [main] *)

Section ScriptFacts.

Import Persistence.

Variable parser : bytes -> exception + Soup.
Variable w : World.

(** The events of the loop: the line that announces a target, its
    request, the pause, and the two kinds of error lines. *)
Lemma run_events (e : event) :
  e ∈ snd (run parser w) ->
  (exists name, e = Print ("Scraping r/" +:+ name +:+ "...")) \/
  (exists url, e = Get url user_agent 10) \/
  e = Sleep 2 \/
  (exists rest, e = Print ("Error fetching r/" +:+ rest)) \/
  (exists rest, e = Print ("Error parsing r/" +:+ rest)).
Proof.
  rewrite run_trace. intros H. apply elem_of_concat in H as [evs [He Hevs]].
  apply list_elem_of_fmap in Hevs as [[url o] [-> _]]. cbn [fst snd] in He.
  unfold events_of in He. apply elem_of_app in He as [He | He].
  - apply elem_of_cons in He as [-> | He]; [left; eauto|].
    apply list_elem_of_singleton in He as ->. right; left; eauto.
  - destruct o as [ex | d].
    + apply list_elem_of_singleton in He as ->.
      destruct (is_RequestException ex); [do 3 right; left | do 4 right]; eauto.
    + apply list_elem_of_singleton in He as ->. right; right; left. reflexivity.
Qed.

Lemma run_has_no_save (data : list subreddit_data) : Save data ∉ snd (run parser w).
Proof.
  intros H. apply run_events in H
    as [[? H] | [[? H] | [H | [[? H] | [? H]]]]]; discriminate H.
Qed.

Lemma run_line_head (line : string) :
  line ∈ lines_of (snd (run parser w)) ->
  PyStr.startswith "S" line = true \/ PyStr.startswith "E" line = true.
Proof.
  unfold lines_of. intros H. apply list_elem_of_omap in H as [e [He Hline]].
  apply run_events in He as [[? ->] | [[? ->] | [-> | [[? ->] | [? ->]]]]];
    try discriminate Hline; injection Hline as <-; [left | right | right]; reflexivity.
Qed.

Variable disk : Disk.

Lemma script_lines_app (l1 l2 : list script_event) :
  script_lines (l1 ++ l2) = script_lines l1 ++ script_lines l2.
Proof. unfold script_lines. apply omap_app. Qed.

Lemma script_lines_cons (e : script_event) (l : list script_event) :
  script_lines (e :: l) = script_lines [e] ++ script_lines l.
Proof. apply (script_lines_app [e] l). Qed.

Lemma script_lines_save (l : list file_event) :
  script_lines (OfSave <$> l) = printed l.
Proof.
  induction l as [|e l IH]; [reflexivity|].
  cbn [fmap list_fmap]. unfold script_lines, printed in *. cbn [omap list_omap].
  rewrite IH. now destruct e.
Qed.

Lemma script_lines_no_save (tr : list event) :
  (forall data, Save data ∉ tr) ->
  script_lines (concat (expand disk <$> tr)) = lines_of tr.
Proof.
  induction tr as [|e tr IH]; intros H; [reflexivity|].
  cbn [fmap list_fmap concat]. rewrite script_lines_app, IH.
  - destruct e; try reflexivity. exfalso. apply (H data), list_elem_of_here.
  - intros data Hin. apply (H data). now apply list_elem_of_further.
Qed.

Lemma script_lines_prints (lines : list string) :
  script_lines (concat (expand disk <$> (Print <$> lines))) = lines.
Proof.
  induction lines as [|l lines IH]; [reflexivity|].
  cbn [fmap list_fmap concat]. rewrite script_lines_app, IH. reflexivity.
Qed.

Lemma script_lines_spec :
  script_lines (run_script parser w disk) =
  [ "Reddit Python Topics Analyzer"; "========================================" ] ++
  lines_of (snd (run parser w)) ++
  report_lines disk (omap entry_of (attempts parser w 0 subreddits)).
Proof.
  unfold run_script. rewrite run_main_spec. cbn [snd].
  rewrite !fmap_app, !concat_app, !script_lines_app.
  rewrite (script_lines_no_save (snd (run parser w))) by apply run_has_no_save.
  f_equal. f_equal.
  destruct (omap entry_of _) as [|d data]; [reflexivity|].
  unfold report_of, report_lines.
  rewrite !fmap_app, !concat_app, !script_lines_app, script_lines_prints.
  cbn [fmap list_fmap concat expand app].
  rewrite (script_lines_cons (OfRun (Print (total_line _ _)))).
  rewrite script_lines_app, script_lines_save. reflexivity.
Qed.

Lemma save_line_head (data : list subreddit_data) (fj fc line : string) :
  data <> [] ->
  line ∈ printed (snd (save disk data fj fc)) ->
  PyStr.startswith "E" line = true \/ PyStr.startswith "P" line = true.
Proof.
  rewrite save_spec. cbn [snd]. destruct data as [|d data]; [congruence|]. intros _.
  unfold printed. rewrite omap_app, elem_of_app. intros H.
  destruct H as [H | H]; apply list_elem_of_omap in H as [e [He Hline]].
  - unfold json_log in He. destruct (open_raises disk fj).
    { apply list_elem_of_singleton in He as ->. injection Hline as <-. now left. }
    apply elem_of_cons in He as [-> | He]; [discriminate|].
    apply elem_of_app in He as [He | He].
    { destruct (dump_raises disk fj); [inversion He|].
      apply list_elem_of_singleton in He as ->. discriminate. }
    apply elem_of_cons in He as [-> | He]; [discriminate|].
    apply list_elem_of_singleton in He as ->. injection Hline as <-.
    destruct (close_raises disk fj); [now left|].
    destruct (dump_raises disk fj); [left | right]; reflexivity.
  - unfold csv_log in He.
    destruct (written disk fc 0 (csv_rows (d :: data))) as [ws o]. cbn [fst snd] in He.
    destruct (open_raises disk fc).
    { apply list_elem_of_singleton in He as ->. injection Hline as <-. now left. }
    apply elem_of_cons in He as [-> | He]; [discriminate|].
    apply elem_of_app in He as [He | He].
    { apply list_elem_of_fmap in He as [r [-> _]]. discriminate. }
    apply elem_of_cons in He as [-> | He]; [discriminate|].
    apply list_elem_of_singleton in He as ->. injection Hline as <-.
    destruct (close_raises disk fc); [now left|].
    destruct o; [left | right]; reflexivity.
Qed.

End ScriptFacts.


(** X10. Whatever the disk does, a run of the script never prints
    [No data to save]: [main] calls [save_python_data] only with data.
    And the run ends with the two lines [Python topics analysis
    completed successfully!] and [Check python_topics.json and
    python_topics.csv for detailed results.] exactly when at least one
    target was scraped, also when neither file could be written. *)
Theorem script_reports_success_whatever_the_disk
    (parser : bytes -> exception + Soup) (w : World) (disk : Persistence.Disk) :
  exists data,
    fst (run parser w) = inr data /\
    ("No data to save"
       ∉ Persistence.script_lines (Persistence.run_script parser w disk)) /\
    ((exists before,
        Persistence.script_lines (Persistence.run_script parser w disk) =
        before ++ [ nl +:+ "Python topics analysis completed successfully!";
                    "Check python_topics.json and python_topics.csv for detailed results." ])
     <-> data <> []).
Proof.
  exists (omap entry_of (attempts parser w 0 subreddits)).
  split; [apply run_data|]. rewrite script_lines_spec.
  generalize (omap entry_of (attempts parser w 0 subreddits)). intros data. split.
  - rewrite !elem_of_app. intros [H | [H | H]].
    + apply elem_of_cons in H as [H | H]; [discriminate H|].
      apply list_elem_of_singleton in H. discriminate H.
    + apply run_line_head in H as [H | H]; discriminate H.
    + destruct data as [|d data].
      { apply list_elem_of_singleton in H. discriminate H. }
      unfold Persistence.report_lines in H. rewrite !elem_of_app in H.
      destruct H as [H | [H | [H | [H | H]]]].
      * apply list_elem_of_singleton in H. discriminate H.
      * apply list_elem_of_fmap in H as [sd [H _]].
        unfold subreddit_line in H. simpl in H. discriminate H.
      * apply list_elem_of_singleton in H.
        unfold total_line, nl in H. simpl in H. discriminate H.
      * apply save_line_head in H; [|discriminate].
        destruct H as [H | H]; discriminate H.
      * apply elem_of_cons in H as [H | H]; [discriminate H|].
        apply list_elem_of_singleton in H. discriminate H.
  - split.
    + intros [before H] ->. cbn [Persistence.report_lines] in H.
      apply (f_equal last) in H. rewrite !app_assoc, last_snoc in H.
      change (before ++ [?a; ?b]) with (before ++ [a] ++ [b]) in H.
      rewrite app_assoc, last_snoc in H. discriminate H.
    + intros Hdata. destruct data as [|d data]; [congruence|].
      unfold Persistence.report_lines. eexists. rewrite !app_assoc. reflexivity.
Qed.


Lemma script_reports_success_whatever_the_disk_witness :
  exists before,
    Persistence.script_lines
      (Persistence.run_script Fixtures.parser Fixtures.second_down Persistence.read_only)
    = before ++ [ nl +:+ "Python topics analysis completed successfully!";
                  "Check python_topics.json and python_topics.csv for detailed results." ].
Proof.
  destruct (script_reports_success_whatever_the_disk Fixtures.parser Fixtures.second_down
              Persistence.read_only) as [data [Hrun [_ Hend]]].
  apply Hend. apply run_data_inv in Hrun. subst data. vm_compute. discriminate.
Defined.

(** On a disk where no file can be opened the script still ends with
    its two lines of success. *)
Example read_only_run :
  Persistence.script_lines
    (Persistence.run_script Fixtures.parser Fixtures.second_down Persistence.read_only)
  = [ "Reddit Python Topics Analyzer";
      "========================================";
      "Scraping r/Python...";
      "Scraping r/programming...";
      "Error fetching r/programming: Connection refused";
      "Scraping r/learnpython...";
      nl +:+ "Analysis Results:";
      "r/Python: 1 Python topics, 1 discussions";
      "r/learnpython: 1 Python topics, 1 discussions";
      nl +:+ "Total: 2 Python topics, 2 discussions across 2 subreddits";
      "Error saving JSON: Read-only file system";
      "Error saving CSV: Read-only file system";
      nl +:+ "Python topics analysis completed successfully!";
      "Check python_topics.json and python_topics.csv for detailed results." ].
Proof. vm_compute. reflexivity. Qed.

(** * More on the extraction and on the loop *)

Section MoreExtraction.

(** A record made by the loop comes from a link whose URL was not seen
    when the loop reached it. *)
Lemma discussion_first_seen (links : list (Tag * string))
    (st : gset string * list discussion) (d : discussion) :
  d ∈ snd (fold_left link_step links st) ->
  d ∈ snd st \/
  exists before link after,
    links = before ++ link :: after /\ d = discussion_of link /\
    discussion_rule (get_text (fst link)) (snd link) /\
    snd link ∉ fst (fold_left link_step before st).
Proof.
  revert st. induction links as [|l links IH]; intros [seen ds] H;
    cbn [fold_left] in H; [now left|].
  apply IH in H as [H | [before [link [after [-> [Hd [Hr Hn]]]]]]].
  - rewrite link_step_spec in H. destruct (decide _) as [[Hr Hn] | _]; cbn [snd] in H.
    + apply elem_of_app in H as [H | H]; [now left|].
      apply list_elem_of_singleton in H. right. exists [], l, links.
      split; [reflexivity|]. split; [exact H|]. split; [exact Hr | exact Hn].
    + now left.
  - right. exists (l :: before), link, after.
    split; [reflexivity|]. split; [exact Hd|]. split; [exact Hr | exact Hn].
Qed.

(** The records follow the order of the links. *)
Lemma discussions_in_order (links : list (Tag * string))
    (st : gset string * list discussion) :
  exists rest,
    snd (fold_left link_step links st) = snd st ++ rest /\
    sublist rest (discussion_of <$> links).
Proof.
  revert st. induction links as [|l links IH]; intros [seen ds]; cbn [fold_left].
  - exists []. split; [now rewrite app_nil_r | constructor].
  - destruct (IH (link_step (seen, ds) l)) as [rest [Hrest Hsub]].
    rewrite Hrest, link_step_spec. destruct (decide _); cbn [snd fmap list_fmap].
    + exists (discussion_of l :: rest). split; [now rewrite <- app_assoc|].
      now apply sublist_skip.
    + exists rest. split; [reflexivity | now apply sublist_cons].
Qed.

Lemma sublist_fmap_filter {A B} (f : A -> B) (P : A -> Prop)
    `{!forall x, Decision (P x)} (l : list A) :
  sublist (f <$> filter P l) (f <$> l).
Proof.
  induction l as [|x l IH]; [constructor|]. rewrite filter_cons.
  destruct (decide (P x)); cbn [fmap list_fmap];
    [now apply sublist_skip | now apply sublist_cons].
Qed.

(** Starting the loop with more URLs already seen removes from its
    result the records of these URLs, and nothing else. *)
Lemma fold_links_shift (S T : gset string) (base ds : list discussion)
    (links : list (Tag * string)) :
  fold_left link_step links (S ∪ T, base ++ filter (fun d => d_url d ∉ S) ds) =
  (S ∪ fst (fold_left link_step links (T, ds)),
   base ++ filter (fun d => d_url d ∉ S) (snd (fold_left link_step links (T, ds)))).
Proof.
  revert T ds. induction links as [|l links IH]; intros T ds; [reflexivity|].
  cbn [fold_left]. destruct (link_step (T, ds) l) as [T' ds'] eqn:E.
  rewrite <- IH. f_equal. rewrite link_step_spec in E. rewrite link_step_spec.
  destruct (decide (discussion_rule _ _ /\ snd l ∉ T)) as [[Hr Hn] | H];
    injection E as <- <-.
  - rewrite filter_app.
    destruct (decide (snd l ∈ S)) as [Hs | Hs].
    + rewrite decide_False by (intros [_ Hx]; apply Hx, elem_of_union; now left).
      rewrite filter_cons_False by (cbn; intros Hx; now apply Hx).
      rewrite filter_nil, app_nil_r. f_equal.
      apply set_eq. intros x. rewrite !elem_of_union, elem_of_singleton.
      split; [tauto|]. intros [Hx | [-> | Hx]]; tauto.
    + rewrite decide_True
        by (split; [exact Hr | rewrite elem_of_union; tauto]).
      rewrite filter_cons_True by exact Hs. rewrite filter_nil, app_assoc. f_equal.
      apply set_eq. intros x. rewrite !elem_of_union, elem_of_singleton. tauto.
  - rewrite decide_False; [reflexivity|].
    intros [Hr Hn]. apply H. split; [exact Hr|].
    intros Hx. apply Hn, elem_of_union. now right.
Qed.


End MoreExtraction.

(** X11. Of several links to the same discussion the first one that
    satisfies the rule gives the record: a record comes from a link
    before which the document has no link with the same URL that
    satisfies the rule (an earlier link with the same URL and a text too
    short does not count). *)
Theorem first_link_wins (soup : Soup) (d : discussion) :
  d ∈ extract_discussions soup ->
  exists before link after,
    find_all_a_href soup = before ++ link :: after /\
    d = discussion_of link /\
    discussion_rule (get_text (fst link)) (snd link) /\
    forall l, l ∈ before -> snd l = snd link ->
              ~ discussion_rule (get_text (fst l)) (snd l).
Proof.
  intros H. unfold extract_discussions, extract_links in H.
  apply discussion_first_seen in H as [H | [before [link [after [Hl [Hd [Hr Hn]]]]]]];
    [inversion H|].
  exists before, link, after.
  split; [exact Hl|]. split; [exact Hd|]. split; [exact Hr|].
  intros l Hin Hurl Hrule. apply Hn. rewrite <- Hurl.
  now apply seen_fold_complete.
Qed.

Lemma first_link_wins_witness :
  let d := {| d_title := "First post"; d_url := "/r/Python/comments/1/first";
              d_type := "discussion" |} in
  d ∈ extract_discussions Fixtures.page /\
  exists before link after,
    find_all_a_href Fixtures.page = before ++ link :: after /\
    d = discussion_of link /\
    discussion_rule (get_text (fst link)) (snd link) /\
    forall l, l ∈ before -> snd l = snd link ->
              ~ discussion_rule (get_text (fst l)) (snd l).
Proof.
  intros d.
  assert (d ∈ extract_discussions Fixtures.page) as Hd by (vm_compute; constructor).
  split; [exact Hd | exact (first_link_wins Fixtures.page d Hd)].
Defined.

(** X12. The records keep the order of the document: the discussions
    are, in order, records of some of the links, and the topics, in
    order, records of some of the headings; so a document yields no more
    discussions than it has links with an [href] and no more topics than
    it has headings. *)
Theorem records_in_document_order (soup : Soup) :
  sublist (extract_discussions soup) (discussion_of <$> find_all_a_href soup) /\
  sublist (extract_topics soup) (topic_of <$> find_all_headings soup) /\
  (length (extract_discussions soup) <= length (find_all_a_href soup))%nat /\
  (length (extract_topics soup) <= length (find_all_headings soup))%nat.
Proof.
  assert (sublist (extract_discussions soup) (discussion_of <$> find_all_a_href soup))
    as Hd.
  { unfold extract_discussions, extract_links.
    destruct (discussions_in_order (find_all_a_href soup) (∅, [])) as [rest [-> H]].
    exact H. }
  assert (sublist (extract_topics soup) (topic_of <$> find_all_headings soup)) as Ht.
  { unfold extract_topics. rewrite fold_heading_step. cbn [app].
    apply sublist_fmap_filter. }
  split; [exact Hd|]. split; [exact Ht|]. split.
  - apply sublist_length in Hd. now rewrite length_fmap in Hd.
  - apply sublist_length in Ht. now rewrite length_fmap in Ht.
Qed.

(** X13. A document made of two parts: its topics are the topics of the
    first part followed by those of the second (topics are not
    deduplicated); its discussions are those of the first part followed
    by those of the second part whose URL the first part does not
    hold. *)
Theorem extraction_of_two_parts (title : option (option string)) (part1 part2 : list Tag) :
  let whole := {| soup_title := title; descendants := part1 ++ part2 |} in
  let first := {| soup_title := title; descendants := part1 |} in
  let second := {| soup_title := title; descendants := part2 |} in
  extract_topics whole = extract_topics first ++ extract_topics second /\
  extract_discussions whole =
  extract_discussions first ++
  filter (fun d => d_url d ∉ d_url <$> extract_discussions first)
         (extract_discussions second).
Proof.
  cbn zeta. split.
  - unfold extract_topics, find_all_headings. cbn [descendants].
    rewrite !fold_heading_step, List.filter_app, filter_app, fmap_app. reflexivity.
  - unfold extract_discussions, extract_links, find_all_a_href. cbn [descendants].
    rewrite omap_app, fold_left_app.
    set (links1 := omap _ part1). set (links2 := omap _ part2).
    pose proof (links_inv_fold links1 (∅, []) links_inv_init) as [Hseen _].
    destruct (fold_left link_step links1 (∅, [])) as [S D] eqn:E. cbn [fst snd] in *.
    pose proof (fold_links_shift S ∅ D [] links2) as H.
    rewrite filter_nil, app_nil_r in H.
    replace (S ∪ ∅) with S in H by (apply set_eq; intros x; rewrite elem_of_union;
      split; [tauto | intros [Hx | Hx]; [exact Hx | now apply not_elem_of_empty in Hx]]).
    rewrite H. cbn [snd]. f_equal. apply list_filter_iff. intros d.
    now rewrite Hseen.
Qed.



Section NameFacts.

Variable sep : ascii.

Lemma contains_char_cons (c : ascii) (s : string) :
  PyStr.contains (String sep EmptyString) (String c s)
  = Ascii.eqb sep c || PyStr.contains (String sep EmptyString) s.
Proof. cbn. now rewrite andb_true_r. Qed.

(** The last item of a split holds no separator, and the string is this
    item alone or ends with the separator followed by it. *)
Lemma split_last (s : string) :
  (PyStr.split sep s = [s] /\ PyStr.contains (String sep EmptyString) s = false) \/
  (exists p l name,
      PyStr.split sep s = l ++ [name] /\ l <> [] /\
      s = p +:+ String sep name /\
      PyStr.contains (String sep EmptyString) name = false).
Proof.
  induction s as [|c s IH].
  - left. split; reflexivity.
  - cbn [PyStr.split]. destruct (Ascii.eqb c sep) eqn:E.
    + apply Ascii.eqb_eq in E as ->. right.
      destruct IH as [[Hs Hn] | [p [l [name [Hs [Hl [Hp Hn]]]]]]].
      * exists EmptyString, [EmptyString], s. rewrite Hs. now repeat split.
      * exists (String sep p), (EmptyString :: l), name. rewrite Hs.
        split; [reflexivity|]. split; [discriminate|]. split; [|exact Hn].
        cbn. now rewrite <- Hp.
    + destruct IH as [[Hs Hn] | [p [l [name [Hs [Hl [Hp Hn]]]]]]].
      * left. rewrite Hs. split; [reflexivity|].
        rewrite contains_char_cons, Hn, Ascii.eqb_sym, E. reflexivity.
      * right. rewrite Hs. destruct l as [|x l]; [congruence|].
        exists (String c p), (String c x :: l), name.
        split; [reflexivity|]. split; [discriminate|]. split; [|exact Hn].
        cbn. now rewrite <- Hp.
Qed.

(** A string that ends with the separator has an empty last item. *)
Lemma split_trailing (p : string) :
  exists l, PyStr.split sep (p +:+ String sep EmptyString) = l ++ [EmptyString] /\ l <> [].
Proof.
  induction p as [|c p [l [IH Hl]]].
  - exists [EmptyString]. cbn. rewrite Ascii.eqb_refl. split; [reflexivity | discriminate].
  - cbn [String.append PyStr.split]. rewrite IH. destruct (Ascii.eqb c sep).
    + exists (EmptyString :: l). split; [reflexivity | discriminate].
    + destruct l as [|x l]; [congruence|].
      exists (String c x :: l). split; [reflexivity | discriminate].
Qed.

End NameFacts.

(** X15. The name under which a target is stored and reported is the
    part of its URL after the last slash: it holds no slash, and the URL
    is the name alone or ends with a slash followed by the name.  A URL
    that ends with a slash gives the empty name. *)
Theorem subreddit_name_of_url (parser : bytes -> exception + Soup) (w : World)
    (k : nat) (url : string) (d : subreddit_data) :
  attempt parser w k url = inr d ->
  PyStr.contains "/" (subreddit d) = false /\
  (url = subreddit d \/ exists p, url = p +:+ "/" +:+ subreddit d) /\
  ((exists p, url = p +:+ "/") -> subreddit d = EmptyString).
Proof.
  intros H. apply attempt_subreddit in H. rewrite H. unfold PyStr.last_item.
  split; [|split].
  - destruct (split_last "/" url) as [[-> Hn] | [p [l [name [-> [_ [_ Hn]]]]]]];
      [exact Hn | now rewrite List.last_last].
  - destruct (split_last "/" url) as [[-> Hn] | [p [l [name [-> [_ [Hp _]]]]]]].
    + now left.
    + right. exists p. now rewrite List.last_last.
  - intros [p ->]. destruct (split_trailing "/" p) as [l [-> _]].
    now rewrite List.last_last.
Qed.

Lemma subreddit_name_of_url_witness :
  exists d,
    attempt Fixtures.parser Fixtures.all_ok 0 "https://www.reddit.com/r/Python/hot/" = inr d /\
    subreddit d = EmptyString.
Proof.
  eexists. split; [vm_compute; reflexivity|].
  eapply (subreddit_name_of_url Fixtures.parser Fixtures.all_ok 0
            "https://www.reddit.com/r/Python/hot/").
  - vm_compute. reflexivity.
  - exists "https://www.reddit.com/r/Python/hot". reflexivity.
Defined.

Section SleepFacts.

Lemma slept_app (tr1 tr2 : list event) : slept (tr1 ++ tr2) = slept tr1 + slept tr2.
Proof.
  induction tr1 as [|e tr1 IH]; [reflexivity|].
  cbn [app]. unfold slept in *. cbn [foldr]. rewrite IH. destruct e; lia.
Qed.

Lemma slept_turn (url : string) (o : exception + subreddit_data) :
  slept (events_of url o) = match o with inr _ => 2 | inl _ => 0 end.
Proof. destruct o; reflexivity. Qed.

Lemma slept_attempts (parser : bytes -> exception + Soup) (w : World)
    (k : nat) (targets : list string) :
  slept (concat ((fun o => events_of (fst o) (snd o)) <$> attempts parser w k targets))
  = 2 * Z.of_nat (length (omap entry_of (attempts parser w k targets))).
Proof.
  revert k. induction targets as [|url targets IH]; intros k; [reflexivity|].
  cbn [attempts fmap list_fmap concat fst snd omap list_omap].
  rewrite slept_app, slept_turn, IH. unfold entry_of at 2. cbn [snd].
  destruct (attempt parser w k url); cbn [length]; lia.
Qed.

End SleepFacts.

(** X16. A run sleeps two seconds for every entry it returns and not at
    all for a target that failed: the seconds slept are twice the length
    of the returned list, the pause after the last scraped target
    included. *)
Theorem seconds_slept (parser : bytes -> exception + Soup) (w : World) :
  exists data,
    fst (run parser w) = inr data /\
    slept (snd (run parser w)) = 2 * Z.of_nat (length data).
Proof.
  exists (omap entry_of (attempts parser w 0 subreddits)).
  split; [apply run_data|]. rewrite run_trace. apply slept_attempts.
Qed.

Section Isolation.

Variable parser : bytes -> exception + Soup.

(** The entries stored under the URL of a target are the entry of its
    own turn, if that turn made one. *)
Lemma entries_with_url (w : World) (k : nat) (targets : list string)
    (i : nat) (url : string) :
  NoDup targets -> targets !! i = Some url ->
  filter (fun d => sd_url d = url) (omap entry_of (attempts parser w k targets))
  = match attempt parser w (k + i) url with inr d => [d] | inl _ => [] end.
Proof.
  revert k i. induction targets as [|t targets IH]; intros k i Hnd Hi; [discriminate|].
  apply NoDup_cons in Hnd as [Hnot Hnd].
  cbn [attempts omap list_omap]. unfold entry_of at 1. cbn [snd].
  destruct i as [|i].
  - injection Hi as ->. rewrite Nat.add_0_r.
    assert (filter (fun d => sd_url d = url)
              (omap entry_of (attempts parser w (S k) targets)) = []) as Hrest.
    { apply elem_of_nil_inv. intros d Hd.
      apply list_elem_of_filter in Hd as [Hu Hd].
      apply entries_elem in Hd as [j [u [Hj Ha]]].
      apply attempt_entry in Ha as [Hu' _]. rewrite Hu in Hu'. subst u.
      apply Hnot. eapply list_elem_of_lookup_2, Hj. }
    destruct (attempt parser w k url) as [e | d] eqn:E; [exact Hrest|].
    apply attempt_entry in E as [E _].
    rewrite filter_cons_True by exact E. now rewrite Hrest.
  - cbn [lookup list_lookup] in Hi.
    replace (k + S i)%nat with (S k + i)%nat by lia.
    rewrite <- (IH (S k) i Hnd Hi).
    destruct (attempt parser w k t) as [e | d] eqn:E; [reflexivity|].
    apply attempt_entry in E as [E _].
    rewrite filter_cons_False; [reflexivity|].
    rewrite E. intros ->. apply Hnot. eapply list_elem_of_lookup_2, Hi.
Qed.

End Isolation.

(** X17. The targets do not influence each other: in two worlds that
    answer the request of one target alike and show the same time after
    it, the runs return the same entry for this target, or both none,
    whatever the other requests meet. *)
Theorem target_outcome_is_its_own (parser : bytes -> exception + Soup)
    (w1 w2 : World) (i : nat) (url : string) :
  subreddits !! i = Some url ->
  requests_get w1 i url = requests_get w2 i url ->
  strftime w1 (S i) = strftime w2 (S i) ->
  exists data1 data2,
    fst (run parser w1) = inr data1 /\ fst (run parser w2) = inr data2 /\
    filter (fun d => sd_url d = url) data1 = filter (fun d => sd_url d = url) data2.
Proof.
  intros Hi Hget Htime.
  exists (omap entry_of (attempts parser w1 0 subreddits)),
         (omap entry_of (attempts parser w2 0 subreddits)).
  split; [apply run_data|]. split; [apply run_data|].
  rewrite !(entries_with_url parser _ 0 subreddits i url subreddits_NoDup Hi).
  cbn [Nat.add]. unfold attempt. now rewrite Hget, Htime.
Qed.

Lemma target_outcome_is_its_own_witness :
  let url := "https://www.reddit.com/r/Python" in
  exists data1 data2,
    fst (run Fixtures.parser Fixtures.all_ok) = inr data1 /\
    fst (run Fixtures.parser Fixtures.second_down) = inr data2 /\
    filter (fun d => sd_url d = url) data1 = filter (fun d => sd_url d = url) data2.
Proof.
  intros url.
  apply (target_outcome_is_its_own Fixtures.parser Fixtures.all_ok Fixtures.second_down
           0 url); reflexivity.
Defined.
